(** * Office add-in project matching (TeamsFx, vscode-extension/officeChat)

    A shallow embedding of
    [officeChat/commands/create/officeCreateCommandHandler.ts] and of
    [officeChat/commands/create/helper.ts]: the combined project catalog,
    the chat based matcher [matchOfficeProject], the lexical matcher
    [matchOfficeProjectByBM25] and the command handler
    [officeCreateCommandHandler].

    Conventions.
    - A JavaScript string is a [string] with one [ascii] per UTF-16
      code unit: the text covered is the text whose code units lie
      below 256 (ISO Latin-1). Lengths and indices count code units, as
      [length], [indexOf] and [slice] do, and [toLowerCase] is the
      Unicode lower-casing of that range, which stays within it.
    - JavaScript numbers that carry a relevance score are rationals [Q]:
      the ordering, the threshold test and the ranking are those of the
      real numbers the scores stand for.
    - A call that may throw returns an [outcome]; effectful code runs in
      the monad [M] over the observable [World]. *)

From Stdlib Require Import String Ascii List ZArith QArith Lia Bool.
From Stdlib Require Import Sorting.Sorted.
From stdpp Require Import base gmap strings list.
Import ListNotations.
Open Scope string_scope.

(* ================================================================= *)
(** ** JavaScript strings *)

Module JS.

(** The code units below 256 that Unicode lower-cases to another code
    unit: A-Z, and the Latin-1 capitals from 192 to 222 except the
    multiplication sign 215. *)
Definition is_upper (c : ascii) : bool :=
  let n := N_of_ascii c in
  ((65 <=? n) && (n <=? 90) || (192 <=? n) && (n <=? 222) && negb (n =? 215))%N.

(** One code unit of [String.prototype.toLowerCase]: the lower-case
    partner of a capital lies 32 above it. *)
Definition lower_ascii (c : ascii) : ascii :=
  if is_upper c then ascii_of_N (N_of_ascii c + 32) else c.

Fixpoint toLowerCase (s : string) : string :=
  match s with
  | EmptyString => EmptyString
  | String c s' => String (lower_ascii c) (toLowerCase s')
  end.

(** No character of [s] is an upper-case letter. *)
Fixpoint lowercased (s : string) : bool :=
  match s with
  | EmptyString => true
  | String c s' => negb (is_upper c) && lowercased s'
  end.

(** What lower-casing means, stated on the code points and without
    reference to [toLowerCase]: [c] is a capital letter. *)
Definition capital (c : ascii) : Prop :=
  (65 <= nat_of_ascii c <= 90)%nat
  \/ (192 <= nat_of_ascii c <= 214)%nat
  \/ (216 <= nat_of_ascii c <= 222)%nat.

(** [small] is the lower-case partner of the capital [c]. *)
Definition partner (c small : ascii) : Prop :=
  capital c /\ nat_of_ascii small = (nat_of_ascii c + 32)%nat.

(** [text] is [original] fully lower-cased: of the same length, with
    every capital replaced by its partner and every other code unit
    kept. *)
Inductive lowercase_of : string -> string -> Prop :=
| lowercase_of_empty : lowercase_of "" ""
| lowercase_of_capital (c small : ascii) (s t : string) :
    partner c small -> lowercase_of s t ->
    lowercase_of (String c s) (String small t)
| lowercase_of_other (c : ascii) (s t : string) :
    ~ capital c -> lowercase_of s t ->
    lowercase_of (String c s) (String c t).


(** [s] and [t] differ at most in the case of their letters. *)
Inductive same_up_to_case : string -> string -> Prop :=
| same_empty : same_up_to_case "" ""
| same_unit (c : ascii) (s t : string) :
    same_up_to_case s t -> same_up_to_case (String c s) (String c t)
| same_capital_left (c small : ascii) (s t : string) :
    partner c small -> same_up_to_case s t ->
    same_up_to_case (String c s) (String small t)
| same_capital_right (c small : ascii) (s t : string) :
    partner c small -> same_up_to_case s t ->
    same_up_to_case (String small s) (String c t).

(** [Array.prototype.join]. *)
Fixpoint join (sep : string) (l : list string) : string :=
  match l with
  | [] => ""
  | [x] => x
  | x :: l' => x ++ sep ++ join sep l'
  end.

(** [Array.prototype.includes] on an array of strings. *)
Definition includes (l : list string) (x : string) : bool :=
  existsb (String.eqb x) l.

(** Truthiness of a string: only the empty string is falsy. *)
Definition truthy_string (s : string) : bool :=
  match s with EmptyString => false | _ => true end.

End JS.

(* ================================================================= *)
(** ** The catalogs and [ProjectMetadata] *)

(** An entry of [officeTemplateMetadata.json]. *)
Record OfficeTemplateConfig := {
  config_id : string;
  config_name : string;
  config_description : string;
  config_project_type : string;
  config_addin_host : string
}.

(** A sample of [sampleProvider.SampleCollection.samples] (the fields
    the matcher reads). *)
Record SampleConfig := {
  sample_id : string;
  sample_title : string;
  sample_fullDescription : string;
  sample_types : list string
}.

(** The [data] object of a template entry. *)
Record TemplateData := {
  capabilities : string;
  project_type : string;
  addin_host : string;
  agent : string;
  programming_language : string
}.

(** [ProjectMetadata] of [chat/commands/create/types]; [type] and
    [platform] are the string literals the code writes. *)
Record ProjectMetadata := {
  id : string;
  type : string;
  platform : string;
  name : string;
  description : string;
  data : option TemplateData
}.

Definition sample_is_office (sample : SampleConfig) : bool :=
  JS.includes (sample_types sample) "Word"
  || JS.includes (sample_types sample) "Excel"
  || JS.includes (sample_types sample) "Powerpoint".

Definition sample_metadata (sample : SampleConfig) : ProjectMetadata :=
  {| id := sample_id sample;
     type := "sample";
     platform := "WXP";
     name := sample_title sample;
     description := sample_fullDescription sample;
     data := None |}.

(** [getOfficeSampleMetadata]: the [for ... of] loop pushing onto
    [result], started from the empty array. *)
Definition getOfficeSampleMetadata_step
    (result : list ProjectMetadata) (sample : SampleConfig) : list ProjectMetadata :=
  if sample_is_office sample then result ++ [sample_metadata sample] else result.

Definition getOfficeSampleMetadata (samples : list SampleConfig) : list ProjectMetadata :=
  fold_left getOfficeSampleMetadata_step samples [].

Definition template_metadata (config : OfficeTemplateConfig) : ProjectMetadata :=
  {| id := config_id config;
     type := "template";
     platform := "WXP";
     name := config_name config;
     description := config_description config;
     data := Some {| capabilities := config_id config;
                     project_type := config_project_type config;
                     addin_host := config_addin_host config;
                     agent := "office";
                     programming_language := "typescript" |} |}.

(** [getOfficeTemplateMetadata]: a [map] over the local JSON catalog. *)
Definition getOfficeTemplateMetadata
    (officeTemplateMeatdata : list OfficeTemplateConfig) : list ProjectMetadata :=
  map template_metadata officeTemplateMeatdata.

(** [[...getOfficeTemplateMetadata(), ...(await getOfficeSampleMetadata())]] *)
Definition allOfficeProjectMetadata
    (officeTemplateMeatdata : list OfficeTemplateConfig)
    (samples : list SampleConfig) : list ProjectMetadata :=
  getOfficeTemplateMetadata officeTemplateMeatdata ++ getOfficeSampleMetadata samples.

(* ================================================================= *)
(** ** JSON values, exceptions and the effect monad *)

(** The value of [JSON.parse]. An object holds its own properties, each
    key once (the parser keeps one value per key). *)
#[warnings="-register-all"]
Inductive json :=
| JNull
| JBool (b : bool)
| JNum (q : Q)
| JStr (s : string)
| JArr (items : list json)
| JObj (fields : list (string * json)).

(** JavaScript truthiness of a parsed value. *)
Definition truthy (v : json) : bool :=
  match v with
  | JNull => false
  | JBool b => b
  | JNum q => negb (Qeq_bool q 0)
  | JStr s => JS.truthy_string s
  | JArr _ | JObj _ => true
  end.

Fixpoint assoc (key : string) (fields : list (string * json)) : option json :=
  match fields with
  | [] => None
  | (k, v) :: rest => if String.eqb k key then Some v else assoc key rest
  end.

(** [v.addin] on a non-nullish value; [None] is [undefined]. Only an
    object can own the property: arrays, strings, numbers and booleans
    have no [addin] on their prototypes. *)
Definition get_addin (v : json) : option json :=
  match v with
  | JObj fields => assoc "addin" fields
  | _ => None
  end.

(** [config.id === matchedProjectId]: a string is strictly equal only
    to the same string; [None] is [undefined]. *)
Definition strict_eq_id (config_id : string) (matchedProjectId : option json) : bool :=
  match matchedProjectId with
  | Some (JStr s) => String.eqb config_id s
  | _ => false
  end.

Inductive outcome (A : Type) : Type :=
| Returned (a : A)
| Thrown (e : string).
Arguments Returned {A} a.
Arguments Thrown {A} e.

Inductive ChatMessage :=
| SystemMessage (content : string)
| UserMessage (content : string).

Record ChatRequest := {
  prompt : string;
  location : string
}.

Inductive CancellationToken := Token (cancelled : bool).

(** What reaches the [ChatResponseStream]. *)
Inductive ResponsePart :=
| Markdown (text : string)
| Button (command : string) (arguments : list string) (title : string)
| FileTree (nodes : list string) (base : string)
| Streamed (text : string).

Inductive TelemetryEvent := CopilotChatStart | CopilotChat.

(** [ChatTelemetryData]: the telemetry session of one command. *)
Record ChatTelemetryData := {
  requestId : string;
  properties : list (string * string);
  measurements : list (string * Q);
  chatMessages : list ChatMessage;
  complete : bool
}.

(** Calls that leave the extension: the language model, the sample
    provider, the scaffolding command and the planner. *)
Inductive HostCall :=
| Call_isInputHarmful (request : ChatRequest)
| Call_SampleCollection
| Call_getCopilotResponseAsString (model : string) (messages : list ChatMessage)
| Call_verbatimCopilotInteraction (model : string) (messages : list ChatMessage)
| Call_showFileTree (project : ProjectMetadata)
| Call_executeCreateCommand (data : option TemplateData) (folder appName : string)
| Call_Planner_processRequest (message : ChatMessage).

Record ICopilotChatResult := {
  result_command : string;
  result_requestId : string
}.

(** The collaborators the handler is linked against. None of them is
    part of the two source files; each is the value the call returns. *)
Record Host := {
  officeTemplateMeatdata : list OfficeTemplateConfig;
  SampleCollection_samples : list SampleConfig;
  isInputHarmful : ChatRequest -> CancellationToken -> bool;
  getOfficeProjectMatchSystemPrompt : list ProjectMetadata -> ChatMessage;
  describeOfficeProjectSystemPrompt : ChatMessage;
  getCopilotResponseAsString :
    string -> list ChatMessage -> CancellationToken -> option string;
  JSON_parse : string -> outcome json;
  JSON_stringify : ProjectMetadata -> string;
  verbatimCopilotInteraction :
    string -> list ChatMessage -> CancellationToken -> list ResponsePart;
  showFileTree : ProjectMetadata -> string * list ResponsePart;
  tmp_dirSync : string;
  crypto_randomBytes_hex : string;
  path_join : string -> string -> string;
  buildTemplateFileTree_nodes : option TemplateData -> string -> string -> list string;
  localize : string -> string;
  createByParticipant : string -> string -> string -> ChatTelemetryData;
  markComplete_measurements : ChatTelemetryData -> list (string * Q);
  Planner_processRequest :
    ChatMessage -> ChatRequest -> ChatTelemetryData ->
    ICopilotChatResult * list ResponsePart
}.

(** What an observer of one command sees. *)
Record World := {
  stream : list ResponsePart;
  sent : list (TelemetryEvent * list (string * string) * option (list (string * Q)));
  telemetryData : ChatTelemetryData;
  calls : list HostCall
}.

Definition M (A : Type) : Type := World -> outcome A * World.

Definition ret {A} (a : A) : M A := fun w => (Returned a, w).

Definition bind {A B} (m : M A) (k : A -> M B) : M B :=
  fun w =>
    match m w with
    | (Returned a, w') => k a w'
    | (Thrown e, w') => (Thrown e, w')
    end.

(** [try { body } catch (e) { handler }] *)
Definition try_catch {A} (body : M A) (handler : string -> M A) : M A :=
  fun w =>
    match body w with
    | (Returned a, w') => (Returned a, w')
    | (Thrown e, w') => handler e w'
    end.

Definition lift_outcome {A} (o : outcome A) : M A := fun w => (o, w).

Declare Scope office_scope.
Delimit Scope office_scope with office.
Notation "x <- m ;; k" := (bind m (fun x => k))
  (at level 100, m at next level, right associativity) : office_scope.
Notation "m ;;; k" := (bind m (fun _ => k))
  (at level 100, right associativity) : office_scope.
Open Scope office_scope.

Definition emit (parts : list ResponsePart) : M unit :=
  fun w => (Returned tt,
            {| stream := stream w ++ parts; sent := sent w;
               telemetryData := telemetryData w; calls := calls w |}).

Definition call (c : HostCall) : M unit :=
  fun w => (Returned tt,
            {| stream := stream w; sent := sent w;
               telemetryData := telemetryData w; calls := calls w ++ [c] |}).

Definition getTelemetry : M ChatTelemetryData :=
  fun w => (Returned (telemetryData w), w).

Definition setTelemetry (t : ChatTelemetryData) : M unit :=
  fun w => (Returned tt,
            {| stream := stream w; sent := sent w;
               telemetryData := t; calls := calls w |}).

(** [ExtTelemetry.sendTelemetryEvent(event, properties, measurements)] *)
Definition sendTelemetryEvent (ev : TelemetryEvent)
    (props : list (string * string)) (meas : option (list (string * Q))) : M unit :=
  fun w => (Returned tt,
            {| stream := stream w; sent := sent w ++ [(ev, props, meas)];
               telemetryData := telemetryData w; calls := calls w |}).

(** [telemetryMetadata.chatMessages.push(...messages)] *)
Definition pushChatMessages (messages : list ChatMessage) : M unit :=
  t <- getTelemetry ;;
  setTelemetry {| requestId := requestId t; properties := properties t;
                  measurements := measurements t;
                  chatMessages := chatMessages t ++ messages;
                  complete := complete t |}.

(* ================================================================= *)
(** ** The tokenizer ([retrievalUtil/retrievalUtil.ts]) *)

Module Tokenizer.

Definition is_space (c : ascii) : bool :=
  let n := nat_of_ascii c in
  (n =? 32)%nat || ((9 <=? n)%nat && (n <=? 13)%nat).

Definition is_punct (c : ascii) : bool :=
  let n := nat_of_ascii c in
  ((33 <=? n)%nat && (n <=? 47)%nat) || ((58 <=? n)%nat && (n <=? 64)%nat)
  || ((91 <=? n)%nat && (n <=? 96)%nat) || ((123 <=? n)%nat && (n <=? 126)%nat).

Fixpoint strip_punct (s : string) : string :=
  match s with
  | EmptyString => EmptyString
  | String c s' => if is_punct c then strip_punct s' else String c (strip_punct s')
  end.

(** Split at runs of white space; [word] is the term being read. *)
Fixpoint split_ws (word : string) (s : string) : list string :=
  match s with
  | EmptyString => if JS.truthy_string word then [word] else []
  | String c s' =>
      if is_space c
      then (if JS.truthy_string word then word :: split_ws "" s' else split_ws "" s')
      else split_ws (word ++ String c "") s'
  end.

Definition words (s : string) : list string := split_ws "" s.

(** Modelled from the spec: [prepareDiscription] of
    [retrievalUtil/retrievalUtil.ts] is not among the source files.
    Section 4.1: lower-case all characters; strip punctuation; remove a
    fixed stop-word set; collapse white-space runs into single
    separators; no stemming. The stop-word set is not listed by the
    spec and is the parameter [stopWords]. *)
Definition prepareDiscription (stopWords : list string) (text : string) : list string :=
  List.filter (fun w => negb (JS.includes stopWords w))
              (words (strip_punct (JS.toLowerCase text))).

End Tokenizer.

(* ================================================================= *)
(** ** The ranking engine ([retrievalUtil/BM25.ts]) *)

Module BM25.

Definition Qnat (n : nat) : Q := inject_Z (Z.of_nat n).

Definition Qlt_bool (x y : Q) : bool := negb (Qle_bool y x).

(** Term-frequency table of one document. *)
Definition count_terms (terms : list string) : gmap string nat :=
  foldr (fun t m => <[t := S (default 0%nat (m !! t))]> m) ∅ terms.

Section Engine.
Local Open Scope Q_scope.
(** The metadata payload is opaque to the engine. *)
Context {Metadata : Type}.
(** How the engine cuts a document text into terms. *)
Variable tokenize : string -> list string.
(** The inverse-document-frequency weight, from the number of
    documents and the document frequency of the term. *)
Variable idf : nat -> nat -> Q.

Record DocumentWithmetadata := {
  documentText : string;
  metadata : Metadata
}.

Record BMDocument := {
  score : Q;
  document : DocumentWithmetadata
}.

Record IndexedDocument := {
  source : DocumentWithmetadata;
  terms : list string;
  termFrequency : gmap string nat
}.

Record Engine := {
  documents : list IndexedDocument;
  documentFrequency : gmap string nat;
  averageLength : Q;
  k1 : Q;
  b : Q
}.

Definition index_document (d : DocumentWithmetadata) : IndexedDocument :=
  let ts := tokenize (documentText d) in
  {| source := d; terms := ts; termFrequency := count_terms ts |}.

(** Number of documents that contain each term at least once. *)
Definition count_documents (docs : list IndexedDocument) : gmap string nat :=
  foldr (fun d m =>
           union_with (fun x y => Some (x + y)%nat)
                      ((fun _ => 1%nat) <$> termFrequency d) m)
        ∅ docs.

Definition average_length (docs : list IndexedDocument) : Q :=
  Qnat (foldr (fun d n => (length (terms d) + n)%nat) 0%nat docs)
  / Qnat (length docs).

(** Modelled from the spec: the constructor of class [BM25]
    ([retrievalUtil/BM25.ts] is not among the source files).
    Section 4.2: per document the term-frequency counts and the
    length; corpus-wide the document frequency per term, the average
    document length and the document count; k1 = 1.5 and b = 0.75. *)
Definition new_BM25 (docs : list DocumentWithmetadata) : Engine :=
  let indexed := map index_document docs in
  {| documents := indexed;
     documentFrequency := count_documents indexed;
     averageLength := average_length indexed;
     k1 := 3 # 2;
     b := 3 # 4 |}.

(** Modelled from the spec: the scoring formula of class [BM25]
    ([retrievalUtil/BM25.ts] is not among the source files). Section
    4.2: the inverse-document-frequency weight times a saturating
    term-frequency weight normalized by the document length relative to
    the corpus average; a term absent from the corpus contributes
    nothing. *)
Definition term_weight (e : Engine) (d : IndexedDocument) (t : string) : Q :=
  match documentFrequency e !! t with
  | None => 0
  | Some n =>
      let f := Qnat (default 0%nat (termFrequency d !! t)) in
      idf (length (documents e)) n
      * ((f * (k1 e + 1))
         / (f + k1 e * (1 - b e + b e * (Qnat (length (terms d)) / averageLength e))))
  end.

(** Modelled from the spec: the score of a document is accumulated over
    the query terms (section 4.2). *)
Definition score_of (e : Engine) (q : list string) (d : IndexedDocument) : Q :=
  fold_left (fun acc t => acc + term_weight e d t) q 0.

(** Every document with its position in the corpus and its score. *)
Definition scored (e : Engine) (q : list string) : list (nat * BMDocument) :=
  imap (fun i d => (i, {| score := score_of e q d; document := source d |}))
       (documents e).

Definition positive (r : nat * BMDocument) : bool := Qlt_bool 0 (score (snd r)).

(** Stable insertion: [x] stood before every entry of [l] in the
    corpus, so it goes before the first entry that does not beat it. *)
Fixpoint insert_ranked (x : nat * BMDocument) (l : list (nat * BMDocument))
  : list (nat * BMDocument) :=
  match l with
  | [] => [x]
  | y :: l' =>
      if Qlt_bool (score (snd x)) (score (snd y))
      then y :: insert_ranked x l'
      else x :: y :: l'
  end.

Definition rank (l : list (nat * BMDocument)) : list (nat * BMDocument) :=
  foldr insert_ranked [] l.

Definition search_indexed (e : Engine) (q : list string) (maxResults : nat)
  : list (nat * BMDocument) :=
  take maxResults (rank (List.filter positive (scored e q))).

(** Modelled from the spec: method [search] of class [BM25]
    ([retrievalUtil/BM25.ts] is not among the source files).
    Section 4.2: the top K documents by score, descending, ties in
    insertion order, only strictly positive scores, length at most K. *)
Definition search (e : Engine) (q : list string) (maxResults : nat)
  : list BMDocument :=
  map snd (search_indexed e q maxResults).

(** [x] ranks before [y]: its score is not lower, and on a tie it
    comes earlier in the corpus. *)
Definition ranks_before (x y : nat * BMDocument) : Prop :=
  score (snd y) <= score (snd x)
  /\ (score (snd x) == score (snd y) -> (fst x < fst y)%nat).

(** Entry [(i, r)] reports document [i] of the corpus. *)
Definition reports (e : Engine) (x : nat * BMDocument) : Prop :=
  exists d, documents e !! fst x = Some d /\ document (snd x) = source d.

End Engine.

Arguments DocumentWithmetadata Metadata : clear implicits.
Arguments BMDocument Metadata : clear implicits.
Arguments IndexedDocument Metadata : clear implicits.
Arguments Engine Metadata : clear implicits.

End BM25.

(* ================================================================= *)
(** ** [helper.ts]: the two matchers *)

(** [matchOfficeProject(request, token, telemetryMetadata)];
    [telemetryMetadata] is the telemetry session of the [World]. *)
Definition matchOfficeProject (h : Host) (request : ChatRequest)
    (token : CancellationToken) : M (option ProjectMetadata) :=
  call Call_SampleCollection ;;;
  let allOfficeProjectMetadata :=
    allOfficeProjectMetadata (officeTemplateMeatdata h) (SampleCollection_samples h) in
  let messages :=
    [ getOfficeProjectMatchSystemPrompt h allOfficeProjectMetadata;
      UserMessage (prompt request) ] in
  pushChatMessages messages ;;;
  call (Call_getCopilotResponseAsString "copilot-gpt-4" messages) ;;;
  let response := getCopilotResponseAsString h "copilot-gpt-4" messages token in
  matchedProjectId <-
    match response with
    | Some text =>
        if JS.truthy_string text then
          try_catch
            (responseJson <- lift_outcome (JSON_parse h text) ;;
             if truthy responseJson then
               match get_addin responseJson with
               | Some addin => if truthy addin then ret (Some addin) else ret None
               | None => ret None
               end
             else ret None)
            (fun e => ret None)
        else ret None
    | None => ret None
    end ;;
  let matchedProject :=
    find (fun config => strict_eq_id (id config) matchedProjectId)
         allOfficeProjectMetadata in
  match matchedProject with
  | Some project => ret (Some project)
  | None => ret None
  end.

(** The retrieval utilities [matchOfficeProjectByBM25] imports:
    [prepareDiscription] and [new BM25(documents).search(query, limit)]. *)
Record RetrievalUtil := {
  prepareDiscription : string -> list string;
  BM25_search :
    list (BM25.DocumentWithmetadata ProjectMetadata) -> list string -> nat ->
    list (BM25.BMDocument ProjectMetadata)
}.

(** The [documents] array of [matchOfficeProjectByBM25]. *)
Definition documents_of (r : RetrievalUtil) (all : list ProjectMetadata)
  : list (BM25.DocumentWithmetadata ProjectMetadata) :=
  map (fun sample =>
         {| BM25.documentText :=
              JS.join " " (prepareDiscription r (JS.toLowerCase (description sample)));
            BM25.metadata := sample |})
      all.

Definition query_of (r : RetrievalUtil) (request : ChatRequest) : list string :=
  prepareDiscription r (JS.toLowerCase (prompt request)).

(** [bm25.search(query, 3)] on the corpus of both catalogs. *)
Definition matchedDocuments (r : RetrievalUtil)
    (templates : list OfficeTemplateConfig) (samples : list SampleConfig)
    (request : ChatRequest) : list (BM25.BMDocument ProjectMetadata) :=
  BM25_search r (documents_of r (allOfficeProjectMetadata templates samples))
              (query_of r request) 3.

(** [matchOfficeProjectByBM25(request)]; [None] is [undefined]. *)
Definition matchOfficeProjectByBM25 (r : RetrievalUtil)
    (templates : list OfficeTemplateConfig) (samples : list SampleConfig)
    (request : ChatRequest) : option ProjectMetadata :=
  let matched := matchedDocuments r templates samples request in
  match head matched with
  | Some first =>
      if (length matched =? 1)%nat && BM25.Qlt_bool 1 (BM25.score first)
      then Some (BM25.metadata (BM25.document first))
      else None
  | None => None
  end.

(** The retrieval utilities as the specification describes them. *)
Definition spec_retrieval (stopWords : list string) (idf : nat -> nat -> Q)
  : RetrievalUtil :=
  {| prepareDiscription := Tokenizer.prepareDiscription stopWords;
     BM25_search := fun docs query limit =>
       BM25.search idf (BM25.new_BM25 Tokenizer.words docs) query limit |}.

(** Number of matches that score above the threshold 1.0. *)
Definition count_above_threshold (l : list (BM25.BMDocument ProjectMetadata)) : nat :=
  length (List.filter (fun d => BM25.Qlt_bool 1 (BM25.score d)) l).

(* ================================================================= *)
(** ** [officeCreateCommandHandler.ts] *)

(** Constants of [officeChat/consts] and [chat/consts]. *)
Record Consts := {
  officeChatParticipantId : string;
  OfficeChatCommand_Create : string;
  CHAT_CREATE_SAMPLE_COMMAND_ID : string
}.

(** [showTemplateFileTree(data, response)] without a code snippet: the
    project is scaffolded in a fresh temporary folder and its files are
    rendered as a tree. *)
Definition showTemplateFileTree (h : Host) (data : option TemplateData) : M string :=
  let tempFolder := tmp_dirSync h in
  let tempAppName := "office-addin-" ++ crypto_randomBytes_hex h in
  call (Call_executeCreateCommand data tempFolder tempAppName) ;;;
  let nodes := buildTemplateFileTree_nodes h data tempFolder tempAppName in
  emit [FileTree nodes (path_join h tempFolder tempAppName)] ;;;
  ret (path_join h tempFolder tempAppName).

(** [officeChatTelemetryData.markComplete()] *)
Definition markComplete (h : Host) : M unit :=
  t <- getTelemetry ;;
  setTelemetry {| requestId := requestId t; properties := properties t;
                  measurements := markComplete_measurements h t;
                  chatMessages := chatMessages t;
                  complete := true |}.

(** The body of the handler up to the common tail; [Some result] is an
    early [return]. *)
Definition officeCreateCommandHandler_body (c : Consts) (h : Host)
    (request : ChatRequest) (token : CancellationToken)
  : M (option ICopilotChatResult) :=
  call (Call_isInputHarmful request) ;;;
  let isHarmful := isInputHarmful h request token in
  if negb isHarmful then
    matchedResult <- matchOfficeProject h request token ;;
    match matchedResult with
    | Some matchedResult =>
        let describeProjectChatMessages :=
          [ describeOfficeProjectSystemPrompt h;
            UserMessage ("The project you are looking for is '"
                         ++ JSON_stringify h matchedResult ++ "'.") ] in
        pushChatMessages describeProjectChatMessages ;;;
        call (Call_verbatimCopilotInteraction "copilot-gpt-3.5-turbo"
                                              describeProjectChatMessages) ;;;
        emit (verbatimCopilotInteraction h "copilot-gpt-3.5-turbo"
                                         describeProjectChatMessages token) ;;;
        (if String.eqb (type matchedResult) "sample" then
           call (Call_showFileTree matchedResult) ;;;
           let '(folder, tree) := showFileTree h matchedResult in
           emit tree ;;;
           let sampleTitle := localize h "teamstoolkit.chatParticipants.create.sample" in
           emit [Button (CHAT_CREATE_SAMPLE_COMMAND_ID c) [folder] sampleTitle]
         else if String.eqb (type matchedResult) "template" then
           emit [Markdown (String (ascii_of_nat 10)
             "We've found a template project that matches your description. Take a look at it below.")] ;;;
           tmpFolder <- showTemplateFileTree h (data matchedResult) ;;
           let templateTitle := localize h "teamstoolkit.chatParticipants.create.template" in
           emit [Button (CHAT_CREATE_SAMPLE_COMMAND_ID c) [tmpFolder] templateTitle]
         else ret tt) ;;;
        ret None
    | None =>
        call (Call_Planner_processRequest (UserMessage (prompt request))) ;;;
        t <- getTelemetry ;;
        let '(result, parts) :=
          Planner_processRequest h (UserMessage (prompt request)) request t in
        emit parts ;;;
        ret (Some result)
    end
  else
    emit [Markdown (localize h "teamstoolkit.chatParticipants.officeAddIn.harmfulInputResponse")] ;;;
    ret None.

(** [officeCreateCommandHandler(request, context, response, token)] *)
Definition officeCreateCommandHandler (c : Consts) (h : Host)
    (request : ChatRequest) (token : CancellationToken) : M ICopilotChatResult :=
  setTelemetry (createByParticipant h (officeChatParticipantId c)
                                    (OfficeChatCommand_Create c) (location request)) ;;;
  officeChatTelemetryData <- getTelemetry ;;
  sendTelemetryEvent CopilotChatStart (properties officeChatTelemetryData) None ;;;
  early <- officeCreateCommandHandler_body c h request token ;;
  match early with
  | Some result => ret result
  | None =>
      markComplete h ;;;
      officeChatTelemetryData <- getTelemetry ;;
      sendTelemetryEvent CopilotChat (properties officeChatTelemetryData)
                         (Some (measurements officeChatTelemetryData)) ;;;
      ret {| result_command := OfficeChatCommand_Create c;
             result_requestId := requestId officeChatTelemetryData |}
  end.

(** The combined catalog, the messages and the reply of the chat based
    matcher, as [matchOfficeProject] computes them. *)
Definition catalog (h : Host) : list ProjectMetadata :=
  allOfficeProjectMetadata (officeTemplateMeatdata h) (SampleCollection_samples h).

Definition matchMessages (h : Host) (request : ChatRequest) : list ChatMessage :=
  [ getOfficeProjectMatchSystemPrompt h (catalog h); UserMessage (prompt request) ].

Definition chatResponse (h : Host) (request : ChatRequest) (token : CancellationToken)
  : option string :=
  getCopilotResponseAsString h "copilot-gpt-4" (matchMessages h request) token.

(* ================================================================= *)
(** ** A small catalog and a host to run the code on *)

Module Demo.

(** The odds ratio under the logarithm of the usual weight. *)
Definition idf_ratio (N n : nat) : Q :=
  (BM25.Qnat N - BM25.Qnat n + (1 # 2)) / (BM25.Qnat n + (1 # 2)).

Definition stopWords : list string := ["a"; "an"; "the"; "for"; "to"; "of"; "with"].

Definition templates : list OfficeTemplateConfig :=
  [ {| config_id := "word-taskpane"; config_name := "Word Taskpane Add-in";
       config_description := "A Word add-in with a task pane.";
       config_project_type := "office-addin-type"; config_addin_host := "word" |};
    {| config_id := "excel-cf"; config_name := "Excel Custom Function";
       config_description := "Excel custom function for a workbook.";
       config_project_type := "office-addin-type"; config_addin_host := "excel" |} ].

Definition samples : list SampleConfig :=
  [ {| sample_id := "hello-world-tab"; sample_title := "Hello World Tab";
       sample_fullDescription := "A Teams tab app.";
       sample_types := ["Tab"] |};
    {| sample_id := "excel-chart"; sample_title := "Excel Chart";
       sample_fullDescription := "Draw a chart in Excel.";
       sample_types := ["Excel"] |} ].

Definition request : ChatRequest :=
  {| prompt := "Create an Excel custom function"; location := "panel" |}.

Definition retrieval : RetrievalUtil := spec_retrieval stopWords idf_ratio.

Definition consts : Consts :=
  {| officeChatParticipantId := "ms-teams-vscode-extension.office";
     OfficeChatCommand_Create := "create";
     CHAT_CREATE_SAMPLE_COMMAND_ID := "fx-extension.chat.createSample" |}.

Definition session : ChatTelemetryData :=
  {| requestId := "req-1"; properties := [("command", "create")];
     measurements := []; chatMessages := []; complete := false |}.

(** A host whose model answers with the JSON text [reply] and flags a
    prompt as harmful when it mentions malware. *)
Definition host (reply : option string) : Host :=
  {| officeTemplateMeatdata := templates;
     SampleCollection_samples := samples;
     isInputHarmful := fun request _ =>
       JS.includes (Tokenizer.words (JS.toLowerCase (prompt request))) "malware";
     getOfficeProjectMatchSystemPrompt := fun all => SystemMessage (JS.join "," (map id all));
     describeOfficeProjectSystemPrompt := SystemMessage "Describe the project.";
     getCopilotResponseAsString := fun _ _ _ => reply;
     JSON_parse := fun text =>
       if String.eqb text "addin: excel-cf"
       then Returned (JObj [("addin", JStr "excel-cf")])
       else if String.eqb text "addin: teams-bot"
       then Returned (JObj [("addin", JStr "teams-bot")])
       else if String.eqb text "no addin"
       then Returned (JObj [("reason", JStr "nothing fits")])
       else Thrown "SyntaxError";
     JSON_stringify := id;
     verbatimCopilotInteraction := fun _ _ _ => [Streamed "This project ..."];
     showFileTree := fun project => ("/tmp/" ++ id project, [FileTree ["README.md"] "/tmp"]);
     tmp_dirSync := "/tmp/tmp-1";
     crypto_randomBytes_hex := "0011223344556677";
     path_join := fun a b => a ++ "/" ++ b;
     buildTemplateFileTree_nodes := fun _ _ _ => ["package.json"; "src"];
     localize := fun key => key;
     createByParticipant := fun _ _ _ => session;
     markComplete_measurements := fun _ => [("time-to-complete", 1 # 2)];
     Planner_processRequest := fun _ _ t =>
       ({| result_command := "create"; result_requestId := requestId t |}, []) |}.

Definition world : World :=
  {| stream := []; sent := []; telemetryData := session; calls := [] |}.

Definition harmfulRequest : ChatRequest :=
  {| prompt := "Create malware for Excel"; location := "panel" |}.

End Demo.

(* ================================================================= *)
(** ** What [matchOfficeProject] reads off the reply, and the world it leaves *)

(** The value of [matchedProjectId] after lines 149-157 of the matcher:
    the truthy [addin] of a non-empty reply that parses to a truthy
    value, and [undefined] otherwise. *)
Definition replyAddin (h : Host) (request : ChatRequest) (token : CancellationToken)
  : option json :=
  match chatResponse h request token with
  | Some text =>
      if JS.truthy_string text then
        match JSON_parse h text with
        | Returned v =>
            if truthy v then
              match get_addin v with
              | Some addin => if truthy addin then Some addin else None
              | None => None
              end
            else None
        | Thrown _ => None
        end
      else None
  | None => None
  end.

(** The world after the matcher ran on [w]: two more chat messages in
    the telemetry session, two more calls, nothing else. *)
Definition world_after_match (h : Host) (request : ChatRequest) (w : World) : World :=
  {| stream := stream w;
     sent := sent w;
     telemetryData :=
       {| requestId := requestId (telemetryData w);
          properties := properties (telemetryData w);
          measurements := measurements (telemetryData w);
          chatMessages := (chatMessages (telemetryData w) ++ matchMessages h request)%list;
          complete := complete (telemetryData w) |};
     calls := (calls w ++ [ Call_SampleCollection;
                            Call_getCopilotResponseAsString "copilot-gpt-4"
                              (matchMessages h request) ])%list |}.

(** A host that differs from [h] in the value [JSON.parse] returns. *)
Definition with_JSON_parse (h : Host) (parse : string -> outcome json) : Host :=
  {| officeTemplateMeatdata := officeTemplateMeatdata h;
     SampleCollection_samples := SampleCollection_samples h;
     isInputHarmful := isInputHarmful h;
     getOfficeProjectMatchSystemPrompt := getOfficeProjectMatchSystemPrompt h;
     describeOfficeProjectSystemPrompt := describeOfficeProjectSystemPrompt h;
     getCopilotResponseAsString := getCopilotResponseAsString h;
     JSON_parse := parse;
     JSON_stringify := JSON_stringify h;
     verbatimCopilotInteraction := verbatimCopilotInteraction h;
     showFileTree := showFileTree h;
     tmp_dirSync := tmp_dirSync h;
     crypto_randomBytes_hex := crypto_randomBytes_hex h;
     path_join := path_join h;
     buildTemplateFileTree_nodes := buildTemplateFileTree_nodes h;
     localize := localize h;
     createByParticipant := createByParticipant h;
     markComplete_measurements := markComplete_measurements h;
     Planner_processRequest := Planner_processRequest h |}.

(** The telemetry session the handler opens, the two messages it sends
    to describe a matched project, and the result it returns when it
    does not hand over to the planner. *)
Definition sessionOf (c : Consts) (h : Host) (request : ChatRequest) : ChatTelemetryData :=
  createByParticipant h (officeChatParticipantId c) (OfficeChatCommand_Create c)
                      (location request).

Definition describeMessages (h : Host) (project : ProjectMetadata) : list ChatMessage :=
  [ describeOfficeProjectSystemPrompt h;
    UserMessage ("The project you are looking for is '"
                 ++ JSON_stringify h project ++ "'.") ].

Definition createResult (c : Consts) (h : Host) (request : ChatRequest)
  : ICopilotChatResult :=
  {| result_command := OfficeChatCommand_Create c;
     result_requestId := requestId (sessionOf c h request) |}.

(** Hosts whose model names a sample, a template, or nothing. *)
Module Replies.

Definition excelChart : ProjectMetadata :=
  sample_metadata
    {| sample_id := "excel-chart"; sample_title := "Excel Chart";
       sample_fullDescription := "Draw a chart in Excel.";
       sample_types := ["Excel"] |}.

Definition excelCf : ProjectMetadata :=
  template_metadata
    {| config_id := "excel-cf"; config_name := "Excel Custom Function";
       config_description := "Excel custom function for a workbook.";
       config_project_type := "office-addin-type"; config_addin_host := "excel" |}.

Definition namesSample : Host :=
  with_JSON_parse (Demo.host (Some "reply"))
                  (fun _ => Returned (JObj [("addin", JStr "excel-chart")])).

Definition namesTemplate : Host := Demo.host (Some "addin: excel-cf").

Definition silent : Host := Demo.host None.

End Replies.

(* ================================================================= *)
(** ** More of [String.prototype]: searching, slicing, replacing

    Indices and lengths count code units, one per [ascii]. *)

Module Str.

(** First index at which [pattern] occurs in [s]. *)
Fixpoint indexOf_nat (pattern s : string) : option nat :=
  if String.prefix pattern s then Some 0%nat
  else match s with
       | EmptyString => None
       | String _ s' => option_map S (indexOf_nat pattern s')
       end.

(** Last index at which [pattern] occurs in [s]. *)
Fixpoint lastIndexOf_nat (pattern s : string) : option nat :=
  match s with
  | EmptyString => if String.prefix pattern "" then Some 0%nat else None
  | String _ s' =>
      match lastIndexOf_nat pattern s' with
      | Some i => Some (S i)
      | None => if String.prefix pattern s then Some 0%nat else None
      end
  end.

Definition index_or_minus_one (i : option nat) : Z :=
  match i with Some n => Z.of_nat n | None => (-1)%Z end.

(** [s.indexOf(pattern)] and [s.lastIndexOf(pattern)]: -1 when absent. *)
Definition indexOf (s pattern : string) : Z := index_or_minus_one (indexOf_nat pattern s).

Definition lastIndexOf (s pattern : string) : Z :=
  index_or_minus_one (lastIndexOf_nat pattern s).

(** [s.includes(pattern)] *)
Definition includes (s pattern : string) : bool :=
  match indexOf_nat pattern s with Some _ => true | None => false end.

(** An index argument of [slice]: a negative index counts from the end,
    and the result is clamped to [0, len]. *)
Definition relative_index (len k : Z) : Z :=
  if (k <? 0)%Z then Z.max (len + k) 0 else Z.min k len.

(** [s.slice(start, end)] *)
Definition slice (s : string) (start end_ : Z) : string :=
  let len := Z.of_nat (String.length s) in
  let from := relative_index len start in
  let to := relative_index len end_ in
  String.substring (Z.to_nat from) (Z.to_nat (Z.max (to - from) 0)) s.

(** The replacement template of [replace] for a string pattern: [$$] is
    a dollar sign, [$&] the match, [$`] the text before the match and
    [$'] the text after it; there are no captures, so every other [$]
    stands for itself. *)
Fixpoint GetSubstitution (matched before after replacement : string) : string :=
  match replacement with
  | EmptyString => EmptyString
  | String c rest =>
      if Ascii.eqb c "$"
      then match rest with
           | EmptyString => String c EmptyString
           | String c' rest' =>
               if Ascii.eqb c' "$"
               then String c' (GetSubstitution matched before after rest')
               else if Ascii.eqb c' "&"
               then matched ++ GetSubstitution matched before after rest'
               else if Ascii.eqb c' "`"
               then before ++ GetSubstitution matched before after rest'
               else if Ascii.eqb c' "'"
               then after ++ GetSubstitution matched before after rest'
               else String c (GetSubstitution matched before after rest)
           end
      else String c (GetSubstitution matched before after rest)
  end.

(** [s.replace(pattern, replacement)] with a string pattern: the first
    occurrence only. *)
Definition replace (s pattern replacement : string) : string :=
  match indexOf_nat pattern s with
  | None => s
  | Some i =>
      let before := String.substring 0 i s in
      let stop := (i + String.length pattern)%nat in
      let after := String.substring stop (String.length s - stop) s in
      before ++ GetSubstitution pattern before after replacement ++ after
  end.

(** No dollar sign in [s]. *)
Fixpoint dollar_free (s : string) : bool :=
  match s with
  | EmptyString => true
  | String c s' => negb (Ascii.eqb c "$") && dollar_free s'
  end.

End Str.

(* ================================================================= *)
(** ** [helper.ts]: merging generated code into a scaffolded project *)

Module Files.

(** The files [vscode.workspace.fs] reads and writes, by the path of
    their [Uri], and what reached [console.error]. *)
Record Disk := {
  files : gmap string string;
  console : list string
}.

Definition FS (A : Type) : Type := Disk -> outcome A * Disk.

Definition fs_ret {A} (a : A) : FS A := fun d => (Returned a, d).

Definition fs_bind {A B} (m : FS A) (k : A -> FS B) : FS B :=
  fun d =>
    match m d with
    | (Returned a, d') => k a d'
    | (Thrown e, d') => (Thrown e, d')
    end.

Definition fs_try_catch {A} (body : FS A) (handler : string -> FS A) : FS A :=
  fun d =>
    match body d with
    | (Returned a, d') => (Returned a, d')
    | (Thrown e, d') => handler e d'
    end.

Definition fs_throw {A} (e : string) : FS A := fun d => (Thrown e, d).

(** [(await vscode.workspace.fs.readFile(uri)).toString()]: throws when
    there is no such file. *)
Definition readFile (uri : string) : FS string :=
  fun d =>
    match files d !! uri with
    | Some content => (Returned content, d)
    | None => (Thrown "FileNotFound", d)
    end.

(** [await vscode.workspace.fs.writeFile(uri, encoder.encode(content))] *)
Definition writeFile (uri content : string) : FS unit :=
  fun d => (Returned tt, {| files := <[uri := content]> (files d); console := console d |}).

(** [console.error(message, error)] *)
Definition console_error (message : string) : FS unit :=
  fun d => (Returned tt, {| files := files d; console := (console d ++ [message])%list |}).

Declare Scope fs_scope.
Delimit Scope fs_scope with fs.
Notation "x <- m ;; k" := (fs_bind m (fun x => k))
  (at level 100, m at next level, right associativity) : fs_scope.
Notation "m ;;; k" := (fs_bind m (fun _ => k))
  (at level 100, right associativity) : fs_scope.

Definition quote : string := String (ascii_of_nat 34) "".
Definition newline : string := String (ascii_of_nat 10) "".

Definition runHeader : string := "export async function run()".

Definition onclickRun : string :=
  "document.getElementById(" ++ quote ++ "run" ++ quote ++ ").onclick = run".

Definition onclickMain : string :=
  "document.getElementById(" ++ quote ++ "run" ++ quote ++ ").onclick = main".

Definition ulOpen : string :=
  "<ul class=" ++ quote ++ "ms-List ms-welcome__features" ++ quote ++ ">".

Definition ulClose : string := "</ul>".

Definition htmlIntroduction : string :=
  "<p class=" ++ quote ++ "ms-font-l" ++ quote
  ++ "> This is an add-in generated by Office Agent in GitHub Copilot</p>".

(** Lines 304-307 of [mergeTaskpaneCode]: the text from the header of
    [run] to the last closing brace of the file gives way to the
    generated code. *)
Definition replaceRunFunction (tsFileContent generatedCode : string) : string :=
  let runFunctionStart := Str.indexOf tsFileContent runHeader in
  let runFunctionEnd := Str.lastIndexOf tsFileContent "}" in
  let runFunction := Str.slice tsFileContent runFunctionStart (runFunctionEnd + 1) in
  Str.replace tsFileContent runFunction generatedCode.

(** Lines 309-315: the click handler becomes [main];
    [String.length onclickRun] is the [length] of the literal, 44 code
    units. *)
Definition replaceOnclick (modifiedTSContent : string) : string :=
  let mapStartIndex := Str.indexOf modifiedTSContent onclickRun in
  let mapEndIndex := (mapStartIndex + Z.of_nat (String.length onclickRun))%Z in
  let map := Str.slice modifiedTSContent mapStartIndex mapEndIndex in
  Str.replace modifiedTSContent map onclickMain.

Definition modifiedTSContent (tsFileContent generatedCode : string) : string :=
  replaceOnclick (replaceRunFunction tsFileContent generatedCode).

(** Lines 318-322: the feature list gives way to one paragraph. *)
Definition modifiedHtmlContent (htmlFileContent : string) : string :=
  let ulStart := Str.indexOf htmlFileContent ulOpen in
  let ulEnd := (Str.indexOf htmlFileContent ulClose + Z.of_nat (String.length ulClose))%Z in
  let ulSection := Str.slice htmlFileContent ulStart ulEnd in
  Str.replace htmlFileContent ulSection htmlIntroduction.

Section Merge.
(** [path.join] on a folder and the names below it. *)
Variable join : list string -> string.
Local Open Scope fs_scope.

Definition taskpaneTs (filePath : string) : string :=
  join [filePath; "src"; "taskpane"; "taskpane.ts"].

Definition taskpaneHtml (filePath : string) : string :=
  join [filePath; "src"; "taskpane"; "taskpane.html"].

Definition functionsTs (filePath : string) : string :=
  join [filePath; "src"; "functions"; "functions.ts"].

(** [mergeTaskpaneCode(filePath, generatedCode)] *)
Definition mergeTaskpaneCode (filePath generatedCode : string) : FS unit :=
  let tsFileUri := taskpaneTs filePath in
  let htmlFileUri := taskpaneHtml filePath in
  fs_try_catch
    (tsFileContent <- readFile tsFileUri ;;
     htmlFileContent <- readFile htmlFileUri ;;
     let modifiedTSContent := modifiedTSContent tsFileContent generatedCode in
     let modifiedHtmlContent := modifiedHtmlContent htmlFileContent in
     writeFile tsFileUri modifiedTSContent ;;;
     writeFile htmlFileUri modifiedHtmlContent)
    (fun error => console_error "Failed to modify file").

(** [mergeCFCode(filePath, generatedCode)] *)
Definition mergeCFCode (filePath generatedCode : string) : FS unit :=
  let functionFileUri := functionsTs filePath in
  fs_try_catch
    (functionFileContent <- readFile functionFileUri ;;
     let modifiedFunctionContent :=
       newline ++ functionFileContent ++ generatedCode ++ newline in
     writeFile functionFileUri modifiedFunctionContent)
    (fun error => console_error "Failed to modify file").

(** [!!codeSnippet] *)
Definition has_snippet (codeSnippet : option string) : bool :=
  match codeSnippet with Some code => JS.truthy_string code | None => false end.

End Merge.

(** An entry of a directory as [readdirSync] and [lstatSync] show it. *)
#[warnings="-register-all"]
Inductive Dirent :=
| File (name : string)
| Directory (name : string) (entries : list Dirent).

(** What [traverseFiles] does for one entry of [dir]. *)
Fixpoint traverseEntry {S : Type} (join : string -> string -> string) (dir : string)
    (callback : string -> S -> S) (entry : Dirent) (st : S) : S :=
  match entry with
  | File file => callback (join dir file) st
  | Directory file entries =>
      fold_left (fun st' entry' => traverseEntry join (join dir file) callback entry' st')
                entries st
  end.

(** [traverseFiles(dir, callback)], where [entries] is the content of
    [dir]; the effect of [callback] is a step on a state. *)
Definition traverseFiles {S : Type} (join : string -> string -> string) (dir : string)
    (entries : list Dirent) (callback : string -> S -> S) (st : S) : S :=
  fold_left (fun st' entry => traverseEntry join dir callback entry st') entries st.

(** [ChatResponseFileTree]: a name and the nodes below it. *)
#[warnings="-register-all"]
Inductive ChatResponseFileTree :=
| FileTreeNode (name : string) (children : list ChatResponseFileTree).

(** [root.children ?? []] *)
Definition children_or_empty (root : ChatResponseFileTree) : list ChatResponseFileTree :=
  match root with FileTreeNode _ children => children end.

Section Build.
Variable join : list string -> string.
(** [vscode.commands.executeCommand(CHAT_EXECUTE_COMMAND_ID, ...)] on the
    create inputs [{...data, folder, "app-name"}]: what it does to the
    disk, or the error it is rejected with. *)
Variable executeCreateCommand : option TemplateData -> string -> string -> FS unit.
(** What [fs.readdirSync] and [fs.lstatSync] show below a folder, or the
    error they throw when the folder cannot be read. *)
Variable readFolder : string -> FS (list Dirent).
(** [path.relative], and [fileTreeAdd] of [chat/commands/create/helper],
    which is not among the source files: the root after the path was
    added. *)
Variable relative : string -> string -> string.
Variable fileTreeAdd : ChatResponseFileTree -> string -> ChatResponseFileTree.
Local Open Scope fs_scope.

(** Lines 242-250 of [buildTemplateFileTree]: the walk of the root
    folder that builds the tree. Nothing catches what the walk throws. *)
Definition walkRootFolder (rootFolder : string) : FS (list ChatResponseFileTree) :=
  let root := FileTreeNode rootFolder [] in
  entries <- readFolder rootFolder ;;
  let root :=
    traverseFiles (fun dir file => join [dir; file]) rootFolder entries
      (fun fullPath root => fileTreeAdd root (relative rootFolder fullPath)) root in
  fs_ret (children_or_empty root).

(** [buildTemplateFileTree(data, tempFolder, tempAppName, codeSnippet)];
    reading [data.capabilities] of an undefined [data] is a TypeError. *)
Definition buildTemplateFileTree (data : option TemplateData)
    (tempFolder tempAppName : string) (codeSnippet : option string)
  : FS (list ChatResponseFileTree) :=
  executeCreateCommand data tempFolder tempAppName ;;;
  let rootFolder := join [tempFolder; tempAppName] in
  match data with
  | None => fs_throw "TypeError"
  | Some data =>
      let isCustomFunction := Str.includes (capabilities data) "excel-cf" in
      (if isCustomFunction && has_snippet codeSnippet
       then mergeCFCode join rootFolder (default "" codeSnippet)
       else if has_snippet codeSnippet
       then mergeTaskpaneCode join rootFolder (default "" codeSnippet)
       else fs_ret tt) ;;;
      walkRootFolder rootFolder
  end.

End Build.

End Files.

(** A scaffolded task pane project to run the merge on. *)
Module Taskpane.

Definition before : string := "Office.onReady(() => { ".
Definition between : string := "; }); ".
Definition body : string := " { await Excel.run(async (context) => { await context.sync(); }); ".
Definition post : string := Files.newline.

Definition tsFileContent : string :=
  before ++ Files.onclickRun ++ between ++ Files.runHeader ++ body ++ "}" ++ post.

Definition generatedCode : string :=
  "export async function main() { console.log(1); }".

Definition htmlHead : string := "<body><main>".
Definition htmlItems : string := "<li>Achieve more</li><li>Unlock features</li>".
Definition htmlTail : string := "</main></body>".

Definition htmlFileContent : string :=
  htmlHead ++ Files.ulOpen ++ htmlItems ++ Files.ulClose ++ htmlTail.

Definition join (segments : list string) : string := JS.join "/" segments.

Definition join2 (a b : string) : string := a ++ "/" ++ b.

Definition disk : Files.Disk :=
  {| Files.files :=
       {[ Files.taskpaneTs join "/tmp/app" := tsFileContent;
          Files.taskpaneHtml join "/tmp/app" := htmlFileContent ]};
     Files.console := [] |}.

Definition tree : list Files.Dirent :=
  [ Files.File "package.json";
    Files.Directory "src"
      [ Files.Directory "taskpane"
          [ Files.File "taskpane.ts"; Files.File "taskpane.html" ];
        Files.Directory "empty" [] ] ].

End Taskpane.

(* ================================================================= *)
(** * Properties *)

(** ** Strings *)

Lemma includes_In (l : list string) (x : string) :
  JS.includes l x = true <-> In x l.
Proof.
  unfold JS.includes. rewrite existsb_exists. split.
  - intros (y & Hy & Heq). apply String.eqb_eq in Heq. now subst.
  - intros Hin. exists x. split; [assumption | apply String.eqb_refl].
Qed.

Lemma lower_ascii_not_upper (c : ascii) : JS.is_upper (JS.lower_ascii c) = false.
Proof.
  destruct c as [[] [] [] [] [] [] [] []]; reflexivity.
Qed.

Lemma toLowerCase_lowercased (s : string) : JS.lowercased (JS.toLowerCase s) = true.
Proof.
  induction s as [| c s IH]; simpl.
  - reflexivity.
  - now rewrite lower_ascii_not_upper, IH.
Qed.

Lemma toLowerCase_idempotent (s : string) :
  JS.toLowerCase (JS.toLowerCase s) = JS.toLowerCase s.
Proof.
  induction s as [| c s IH]; simpl; [reflexivity |].
  rewrite IH. f_equal.
  unfold JS.lower_ascii at 1. now rewrite lower_ascii_not_upper.
Qed.

(** Case analysis on a code unit, with its number computed. *)
Ltac by_code_unit c :=
  destruct c as [[] [] [] [] [] [] [] []];
  unfold JS.partner, JS.capital; cbn [nat_of_ascii]; vm_compute.

Lemma is_upper_capital (c : ascii) : JS.is_upper c = true <-> JS.capital c.
Proof.
  by_code_unit c; (split; [intros H; try discriminate H; lia | intros H; try reflexivity; lia]).
Qed.

Lemma lower_ascii_partner (c : ascii) : JS.capital c -> JS.partner c (JS.lower_ascii c).
Proof.
  by_code_unit c; intros H; try (exfalso; lia); (split; [lia | reflexivity]).
Qed.

Lemma lower_ascii_other (c : ascii) : ~ JS.capital c -> JS.lower_ascii c = c.
Proof.
  intros H. unfold JS.lower_ascii. destruct (JS.is_upper c) eqn:E; [| reflexivity].
  apply is_upper_capital in E. contradiction.
Qed.

Lemma partner_unique (c small : ascii) : JS.partner c small -> small = JS.lower_ascii c.
Proof.
  intros [Hc Hn]. destruct (lower_ascii_partner c Hc) as [_ Hl].
  rewrite <- (ascii_nat_embedding small), <- (ascii_nat_embedding (JS.lower_ascii c)).
  congruence.
Qed.




Lemma lowercase_of_toLowerCase (s t : string) :
  JS.lowercase_of s t -> t = JS.toLowerCase s.
Proof.
  induction 1 as [| c small s t Hp _ IH | c s t Hc _ IH]; simpl.
  - reflexivity.
  - now rewrite (partner_unique c small Hp), IH.
  - now rewrite lower_ascii_other, IH.
Qed.



(** ** The catalogs *)

Lemma getOfficeSampleMetadata_loop (samples : list SampleConfig) :
  forall result,
    fold_left getOfficeSampleMetadata_step samples result
    = (result ++ map sample_metadata (List.filter sample_is_office samples))%list.
Proof.
  induction samples as [| s samples IH]; intros result; simpl.
  - now rewrite app_nil_r.
  - rewrite IH. unfold getOfficeSampleMetadata_step.
    destruct (sample_is_office s); simpl.
    + now rewrite <- app_assoc.
    + reflexivity.
Qed.

Lemma getOfficeSampleMetadata_filter (samples : list SampleConfig) :
  getOfficeSampleMetadata samples
  = map sample_metadata (List.filter sample_is_office samples).
Proof.
  unfold getOfficeSampleMetadata. now rewrite getOfficeSampleMetadata_loop.
Qed.

Lemma sample_is_office_types (s : SampleConfig) :
  sample_is_office s = true ->
  In "Word" (sample_types s) \/ In "Excel" (sample_types s)
  \/ In "Powerpoint" (sample_types s).
Proof.
  unfold sample_is_office. intros H.
  apply orb_true_iff in H as [H | H]; [apply orb_true_iff in H as [H | H] |];
    apply includes_In in H; auto.
Qed.

Lemma template_entry_shape (templates : list OfficeTemplateConfig) (m : ProjectMetadata) :
  In m (getOfficeTemplateMetadata templates) ->
  exists config, In config templates /\ m = template_metadata config.
Proof.
  unfold getOfficeTemplateMetadata. intros Hm.
  apply in_map_iff in Hm as (config & <- & Hin). now exists config.
Qed.

Lemma sample_entry_shape (samples : list SampleConfig) (m : ProjectMetadata) :
  In m (getOfficeSampleMetadata samples) ->
  exists s, In s samples /\ sample_is_office s = true /\ m = sample_metadata s.
Proof.
  rewrite getOfficeSampleMetadata_filter. intros Hm.
  apply in_map_iff in Hm as (s & <- & Hs). apply filter_In in Hs as [Hin Hoffice].
  now exists s.
Qed.

(** C9. Every entry of the combined catalog has platform "WXP" and type
    "template" or "sample"; a template entry has type "template" and a
    data object whose capabilities are the entry's id and whose
    programming language is "typescript"; a sample entry has type
    "sample" and is built from a sample whose types include "Word",
    "Excel" or "Powerpoint". *)
Theorem catalog_metadata_invariant
    (templates : list OfficeTemplateConfig) (samples : list SampleConfig) :
  Forall (fun m => platform m = "WXP" /\ (type m = "template" \/ type m = "sample"))
         (allOfficeProjectMetadata templates samples)
  /\ Forall (fun m => type m = "template"
                      /\ exists d, data m = Some d /\ capabilities d = id m
                                   /\ programming_language d = "typescript")
            (getOfficeTemplateMetadata templates)
  /\ Forall (fun m => type m = "sample"
                      /\ exists s, In s samples /\ m = sample_metadata s
                                   /\ (In "Word" (sample_types s)
                                       \/ In "Excel" (sample_types s)
                                       \/ In "Powerpoint" (sample_types s)))
            (getOfficeSampleMetadata samples).
Proof.
  repeat split.
  - apply List.Forall_forall. intros m Hm. unfold allOfficeProjectMetadata in Hm.
    apply in_app_iff in Hm as [Hm | Hm].
    + apply template_entry_shape in Hm as (config & _ & ->). simpl. auto.
    + apply sample_entry_shape in Hm as (s & _ & _ & ->). simpl. auto.
  - apply List.Forall_forall. intros m Hm.
    apply template_entry_shape in Hm as (config & _ & ->).
    split; [reflexivity |]. eexists. repeat split.
  - apply List.Forall_forall. intros m Hm.
    apply sample_entry_shape in Hm as (s & Hin & Hoffice & ->).
    split; [reflexivity |]. exists s. auto using sample_is_office_types.
Qed.

(** ** The lexical matcher *)

Section Orchestrator.
Variable r : RetrievalUtil.
Variable templates : list OfficeTemplateConfig.
Variable samples : list SampleConfig.
Variable request : ChatRequest.

Lemma documents_of_metadata (all : list ProjectMetadata) :
  map BM25.metadata (documents_of r all) = all.
Proof.
  unfold documents_of. rewrite map_map. simpl. apply map_id.
Qed.

(** C5. The corpus handed to the engine has one document per catalog
    entry: the template entries, then the sample entries that pass the
    Word/Excel/Powerpoint filter, each in catalog order, and each
    document carries the metadata of its entry. *)
Theorem corpus_is_combined_catalog :
  let corpus := documents_of r (allOfficeProjectMetadata templates samples) in
  matchedDocuments r templates samples request
  = BM25_search r corpus (query_of r request) 3
  /\ map BM25.metadata corpus
     = (map template_metadata templates
        ++ map sample_metadata (List.filter sample_is_office samples))%list
  /\ length corpus
     = (length templates + length (List.filter sample_is_office samples))%nat.
Proof.
  simpl. split; [reflexivity |]. split.
  - rewrite documents_of_metadata. unfold allOfficeProjectMetadata.
    now rewrite getOfficeSampleMetadata_filter.
  - unfold documents_of, allOfficeProjectMetadata, getOfficeTemplateMetadata.
    rewrite getOfficeSampleMetadata_filter.
    now rewrite length_map, length_app, !length_map.
Qed.


(** The case of the prompt does not reach the engine. *)
Lemma matchOfficeProjectByBM25_case_blind (request' : ChatRequest) :
  JS.toLowerCase (prompt request') = JS.toLowerCase (prompt request) ->
  matchOfficeProjectByBM25 r templates samples request'
  = matchOfficeProjectByBM25 r templates samples request.
Proof.
  intros H. unfold matchOfficeProjectByBM25, matchedDocuments, query_of.
  now rewrite H.
Qed.

Lemma Qlt_bool_iff (x y : Q) : BM25.Qlt_bool x y = true <-> (x < y)%Q.
Proof.
  unfold BM25.Qlt_bool. rewrite negb_true_iff. split.
  - intros H. apply Qnot_le_lt. intros Hle.
    apply Qle_bool_iff in Hle. congruence.
  - intros H. destruct (Qle_bool y x) eqn:E; [| reflexivity].
    apply Qle_bool_iff in E. exfalso. now apply (Qlt_not_le x y).
Qed.

(** C1, as the code has it. The matcher returns a project exactly
    when the search (limit 3) yields one single match in all and that
    match scores above 1.0; the project is the metadata of that match.
    In every other case it returns undefined. *)
Theorem matchOfficeProjectByBM25_single_match :
  let matched := matchedDocuments r templates samples request in
  (forall project,
      matchOfficeProjectByBM25 r templates samples request = Some project
      <-> exists first,
          matched = [first] /\ (1 < BM25.score first)%Q
          /\ project = BM25.metadata (BM25.document first))
  /\ (matchOfficeProjectByBM25 r templates samples request = None
      <-> ~ exists first, matched = [first] /\ (1 < BM25.score first)%Q).
Proof.
  simpl. unfold matchOfficeProjectByBM25.
  destruct (matchedDocuments r templates samples request) as [| d [| d' l]] eqn:E;
    simpl.
  - split.
    + intros project. split; [discriminate |]. intros (f & Hf & _). discriminate.
    + split; [| reflexivity]. intros _ (f & Hf & _). discriminate.
  - destruct (BM25.Qlt_bool 1 (BM25.score d)) eqn:Hs.
    + apply Qlt_bool_iff in Hs. split.
      * intros project. split.
        -- intros [= <-]. now exists d.
        -- intros (f & [= <-] & _ & ->). reflexivity.
      * split; [discriminate |]. intros Hno. exfalso. apply Hno. now exists d.
    + assert (Hn : ~ (1 < BM25.score d)%Q).
      { intros Hlt. apply Qlt_bool_iff in Hlt. congruence. }
      split.
      * intros project. split; [discriminate |].
        intros (f & [= <-] & Hlt & _). contradiction.
      * split; [| reflexivity]. intros _ (f & [= <-] & Hlt). contradiction.
  - split.
    + intros project. split; [discriminate |]. intros (f & Hf & _). discriminate.
    + split; [| reflexivity]. intros _ (f & Hf & _). discriminate.
Qed.

End Orchestrator.

(** ** The ranking engine *)

Section Ranking.
Context {Metadata : Type}.
Variable tokenize : string -> list string.
Variable idf : nat -> nat -> Q.

Abbreviation Entry := (nat * BM25.BMDocument Metadata)%type.
Abbreviation insert_ranked := (@BM25.insert_ranked Metadata).
Abbreviation rank := (@BM25.rank Metadata).
Abbreviation ranks_before := (@BM25.ranks_before Metadata).

Lemma Qlt_bool_false (x y : Q) : BM25.Qlt_bool x y = false <-> (y <= x)%Q.
Proof.
  unfold BM25.Qlt_bool. rewrite negb_false_iff. apply Qle_bool_iff.
Qed.

(** *** Insertion keeps every entry and nothing else *)

Lemma Forall_insert_ranked (P : Entry -> Prop) (x : Entry) (l : list Entry) :
  Forall P (insert_ranked x l) <-> P x /\ Forall P l.
Proof.
  induction l as [| y l IH]; simpl.
  - rewrite Forall_cons_iff. reflexivity.
  - destruct (BM25.Qlt_bool _ _).
    + rewrite !Forall_cons_iff, IH. tauto.
    + rewrite !Forall_cons_iff. tauto.
Qed.

Lemma Forall_rank (P : Entry -> Prop) (l : list Entry) :
  Forall P (rank l) <-> Forall P l.
Proof.
  induction l as [| x l IH]; simpl.
  - reflexivity.
  - rewrite Forall_insert_ranked, Forall_cons_iff, IH. reflexivity.
Qed.

Lemma length_rank (l : list Entry) : length (rank l) = length l.
Proof.
  assert (Hins : forall x l', length (insert_ranked x l') = S (length l')).
  { intros x l'. induction l' as [| y l' IH]; simpl; [reflexivity |].
    destruct (BM25.Qlt_bool _ _); simpl; [now rewrite IH | reflexivity]. }
  induction l as [| x l IH]; simpl; [reflexivity |].
  now rewrite Hins, IH.
Qed.

(** *** Ranking is a stable descending sort *)

Lemma insert_ranked_sorted (x : Entry) (l : list Entry) :
  StronglySorted ranks_before l ->
  Forall (fun y => fst x < fst y)%nat l ->
  StronglySorted ranks_before (insert_ranked x l).
Proof.
  induction l as [| y l IH]; intros Hsorted Hfirst; simpl.
  - repeat constructor.
  - apply StronglySorted_inv in Hsorted as [Hl Hy].
    apply Forall_cons_iff in Hfirst as [Hxy Hxl].
    destruct (BM25.Qlt_bool (BM25.score (snd x)) (BM25.score (snd y))) eqn:E.
    + apply Qlt_bool_iff in E. constructor; [now apply IH |].
      apply Forall_insert_ranked. split; [| assumption]. split.
      * now apply Qlt_le_weak.
      * intros Heq. rewrite Heq in E. now apply Qlt_irrefl in E.
    + apply Qlt_bool_false in E.
      constructor; [now constructor |]. constructor.
      * split; [assumption | now intros _].
      * apply List.Forall_forall. intros z Hz.
        rewrite List.Forall_forall in Hy, Hxl.
        destruct (Hy z Hz) as [Hzy _]. split.
        -- now apply Qle_trans with (BM25.score (snd y)).
        -- intros _. now apply Hxl.
Qed.

Lemma rank_sorted (l : list Entry) :
  StronglySorted (fun x y => fst x < fst y)%nat l ->
  StronglySorted ranks_before (rank l).
Proof.
  induction l as [| x l IH]; intros Hsorted; simpl.
  - constructor.
  - apply StronglySorted_inv in Hsorted as [Hl Hx].
    apply insert_ranked_sorted; [now apply IH |].
    now apply Forall_rank.
Qed.

Lemma StronglySorted_filter_bool {A} (R : A -> A -> Prop) (f : A -> bool) (l : list A) :
  StronglySorted R l -> StronglySorted R (List.filter f l).
Proof.
  induction 1 as [| x l Hl IH Hx]; simpl; [constructor |].
  destruct (f x); [| assumption].
  constructor; [assumption |].
  apply List.Forall_forall. intros y Hy. apply filter_In in Hy as [Hy _].
  rewrite List.Forall_forall in Hx. now apply Hx.
Qed.

Lemma StronglySorted_take {A} (R : A -> A -> Prop) (n : nat) (l : list A) :
  StronglySorted R l -> StronglySorted R (take n l).
Proof.
  intros Hsorted. revert n.
  induction Hsorted as [| x l Hl IH Hx]; intros [| n]; simpl; try constructor.
  - apply IH.
  - now apply Forall_take.
Qed.

Lemma Forall_filter_bool {A} (P : A -> Prop) (f : A -> bool) (l : list A) :
  Forall P l -> Forall P (List.filter f l).
Proof.
  intros H. apply List.Forall_forall. intros x Hx.
  apply filter_In in Hx as [Hx _]. rewrite List.Forall_forall in H. now apply H.
Qed.

Lemma Forall_filter_holds {A} (f : A -> bool) (l : list A) :
  Forall (fun x => f x = true) (List.filter f l).
Proof.
  apply List.Forall_forall. intros x Hx. now apply filter_In in Hx.
Qed.

(** *** The scored corpus *)

Lemma imap_positions {A} (mk : A -> BM25.BMDocument Metadata) (l : list A) (k : nat) :
  StronglySorted (fun x y : Entry => fst x < fst y)%nat
                 (imap (fun i d => ((k + i)%nat, mk d)) l)
  /\ Forall (fun x : Entry => k <= fst x)%nat
            (imap (fun i d => ((k + i)%nat, mk d)) l).
Proof.
  revert k. induction l as [| a l IH]; intros k; simpl.
  - split; constructor.
  - destruct (IH (S k)) as [Hs Hf].
    assert (Heq : imap ((fun i d => ((k + i)%nat, mk d)) ∘ S) l
                  = imap (fun i d => ((S k + i)%nat, mk d)) l).
    { apply imap_ext. intros i d _. simpl. f_equal. lia. }
    rewrite Heq. split.
    + constructor; [assumption |].
      eapply Forall_impl; [exact Hf |]. simpl. intros z Hz. lia.
    + constructor; [simpl; lia |].
      eapply Forall_impl; [exact Hf |]. simpl. intros z Hz. lia.
Qed.

Lemma scored_positions (e : BM25.Engine Metadata) (q : list string) :
  StronglySorted (fun x y : Entry => fst x < fst y)%nat (BM25.scored idf e q).
Proof.
  unfold BM25.scored.
  pose proof (imap_positions
                (fun d => {| BM25.score := BM25.score_of idf e q d;
                             BM25.document := BM25.source d |})
                (BM25.documents e) 0) as [H _].
  exact H.
Qed.

Lemma scored_entries (e : BM25.Engine Metadata) (q : list string) :
  Forall (fun x : Entry =>
            exists d, BM25.documents e !! fst x = Some d
                      /\ snd x = {| BM25.score := BM25.score_of idf e q d;
                                    BM25.document := BM25.source d |})
         (BM25.scored idf e q).
Proof.
  apply List.Forall_forall. intros x Hx. apply list_elem_of_In in Hx.
  unfold BM25.scored in Hx. apply elem_of_lookup_imap in Hx as (i & d & -> & Hd).
  now exists d.
Qed.

Lemma scored_reports (e : BM25.Engine Metadata) (q : list string) :
  Forall (BM25.reports e) (BM25.scored idf e q).
Proof.
  eapply Forall_impl; [apply scored_entries |].
  intros x (d & Hd & Hx). exists d. split; [assumption |]. now rewrite Hx.
Qed.

(** *** Scores *)

Lemma count_terms_lookup (ts : list string) (t : string) :
  default 0%nat (BM25.count_terms ts !! t) = count_occ string_dec ts t.
Proof.
  induction ts as [| u ts IH]; simpl.
  - now rewrite lookup_empty.
  - destruct (string_dec u t) as [-> | Hne].
    + rewrite lookup_insert_eq. simpl. now rewrite IH.
    + now rewrite lookup_insert_ne.
Qed.

Lemma count_terms_absent (ts : list string) (t : string) :
  ~ In t ts -> BM25.count_terms ts !! t = None.
Proof.
  induction ts as [| u ts IH]; intros Hnot; simpl.
  - apply lookup_empty.
  - rewrite lookup_insert_ne.
    + apply IH. intros Hin. apply Hnot. now right.
    + intros ->. apply Hnot. now left.
Qed.

Lemma term_weight_absent (e : BM25.Engine Metadata)
    (d : BM25.IndexedDocument Metadata) (t : string) :
  BM25.termFrequency d !! t = None ->
  (BM25.term_weight idf e d t == 0)%Q.
Proof.
  intros Hnone. unfold BM25.term_weight. rewrite Hnone. simpl.
  destruct (BM25.documentFrequency e !! t); [| reflexivity].
  unfold BM25.Qnat. simpl. unfold Qdiv.
  now rewrite !Qmult_0_l, Qmult_0_r.
Qed.

Lemma fold_left_zero (w : string -> Q) (q : list string) :
  (forall t, In t q -> (w t == 0)%Q) ->
  forall a, (fold_left (fun acc t => acc + w t)%Q q a == a)%Q.
Proof.
  induction q as [| t q IH]; intros Hzero a; simpl.
  - reflexivity.
  - rewrite IH.
    + rewrite (Hzero t) by now left. apply Qplus_0_r.
    + intros u Hu. apply Hzero. now right.
Qed.

Lemma score_of_no_overlap (e : BM25.Engine Metadata) (q : list string)
    (d : BM25.IndexedDocument Metadata) :
  BM25.termFrequency d = BM25.count_terms (BM25.terms d) ->
  (forall t, In t q -> ~ In t (BM25.terms d)) ->
  (BM25.score_of idf e q d == 0)%Q.
Proof.
  intros Htf Hnone. unfold BM25.score_of. apply fold_left_zero.
  intros t Ht. apply term_weight_absent. rewrite Htf.
  apply count_terms_absent. now apply Hnone.
Qed.

Lemma score_of_overlap (e : BM25.Engine Metadata) (q : list string)
    (d : BM25.IndexedDocument Metadata) :
  BM25.termFrequency d = BM25.count_terms (BM25.terms d) ->
  (0 < BM25.score_of idf e q d)%Q ->
  exists t, In t q /\ In t (BM25.terms d).
Proof.
  intros Htf Hpos.
  destruct (existsb (JS.includes (BM25.terms d)) q) eqn:E.
  - apply existsb_exists in E as (t & Ht & Hin). apply includes_In in Hin. eauto.
  - exfalso. apply (Qlt_irrefl 0).
    rewrite <- (score_of_no_overlap e q d Htf) at 2; [assumption |].
    intros t Ht Hin. apply includes_In in Hin.
    assert (Hex : existsb (JS.includes (BM25.terms d)) q = true).
    { apply existsb_exists. eauto. }
    congruence.
Qed.

Lemma new_BM25_documents (docs : list (BM25.DocumentWithmetadata Metadata)) :
  Forall (fun d => BM25.terms d = tokenize (BM25.documentText (BM25.source d))
                   /\ BM25.termFrequency d = BM25.count_terms (BM25.terms d))
         (BM25.documents (BM25.new_BM25 tokenize docs)).
Proof.
  simpl. apply List.Forall_forall. intros d Hd.
  apply in_map_iff in Hd as (doc & <- & _). now split.
Qed.

Lemma search_indexed_Forall (P : Entry -> Prop) (e : BM25.Engine Metadata)
    (q : list string) (maxResults : nat) :
  Forall P (BM25.scored idf e q) ->
  Forall P (BM25.search_indexed idf e q maxResults).
Proof.
  intros H. unfold BM25.search_indexed.
  apply Forall_take, Forall_rank. now apply Forall_filter_bool.
Qed.

Lemma search_indexed_positive (e : BM25.Engine Metadata)
    (q : list string) (maxResults : nat) :
  Forall (fun x : Entry => (0 < BM25.score (snd x))%Q)
         (BM25.search_indexed idf e q maxResults).
Proof.
  unfold BM25.search_indexed. apply Forall_take, Forall_rank.
  eapply Forall_impl; [apply Forall_filter_holds |].
  intros x Hx. now apply Qlt_bool_iff.
Qed.

(** C2. A search returns at most [maxResults] entries; every entry has
    a strictly positive score and shares a term with the query, so a
    document without any query term is never returned. *)
Theorem search_bounded_positive
    (docs : list (BM25.DocumentWithmetadata Metadata))
    (q : list string) (maxResults : nat) :
  let results := BM25.search idf (BM25.new_BM25 tokenize docs) q maxResults in
  (length results <= maxResults)%nat
  /\ Forall (fun r =>
               (0 < BM25.score r)%Q
               /\ exists t, In t q
                            /\ In t (tokenize (BM25.documentText (BM25.document r))))
            results.
Proof.
  simpl. unfold BM25.search. split.
  - rewrite length_map. unfold BM25.search_indexed. rewrite length_take. lia.
  - apply List.Forall_map.
    pose proof (search_indexed_positive (BM25.new_BM25 tokenize docs) q maxResults)
      as Hpos.
    pose proof (search_indexed_Forall _ (BM25.new_BM25 tokenize docs) q maxResults
                  (scored_entries (BM25.new_BM25 tokenize docs) q)) as Hent.
    rewrite List.Forall_forall in Hpos, Hent. apply List.Forall_forall.
    intros x Hx. split; [now apply Hpos |].
    destruct (Hent x Hx) as (d & Hd & Hsnd).
    pose proof (new_BM25_documents docs) as Hdocs.
    rewrite List.Forall_forall in Hdocs.
    destruct (Hdocs d) as [Hterms Htf].
    { apply list_elem_of_In. eapply list_elem_of_lookup_2. exact Hd. }
    specialize (Hpos x Hx). rewrite Hsnd in Hpos |- *. simpl in Hpos |- *.
    destruct (score_of_overlap _ q d Htf Hpos) as (t & Ht & Hin).
    exists t. split; [assumption |]. now rewrite <- Hterms.
Qed.

Lemma ranks_before_descending (l : list Entry) :
  StronglySorted ranks_before l ->
  StronglySorted (fun x y => (BM25.score y <= BM25.score x)%Q) (map snd l).
Proof.
  induction 1 as [| x l Hl IH Hx]; simpl; constructor; [assumption |].
  apply List.Forall_map. eapply Forall_impl; [exact Hx |].
  now intros y [Hle _].
Qed.

Lemma search_indexed_sorted (e : BM25.Engine Metadata)
    (q : list string) (maxResults : nat) :
  StronglySorted ranks_before (BM25.search_indexed idf e q maxResults).
Proof.
  unfold BM25.search_indexed.
  apply StronglySorted_take, rank_sorted, StronglySorted_filter_bool, scored_positions.
Qed.

(** C3. The result of a search is sorted by descending score. It is the
    list of matches of [search_indexed], each of which reports the
    document at its corpus position, and in that list a match stands
    before every match of lower score and, on equal scores, before every
    match of a later corpus position. *)
Theorem search_sorted_stable (e : BM25.Engine Metadata)
    (q : list string) (maxResults : nat) :
  StronglySorted (fun x y => (BM25.score y <= BM25.score x)%Q)
                 (BM25.search idf e q maxResults)
  /\ BM25.search idf e q maxResults
     = map snd (BM25.search_indexed idf e q maxResults)
  /\ Forall (BM25.reports e) (BM25.search_indexed idf e q maxResults)
  /\ StronglySorted ranks_before (BM25.search_indexed idf e q maxResults).
Proof.
  repeat split.
  - apply ranks_before_descending, search_indexed_sorted.
  - apply search_indexed_Forall, scored_reports.
  - apply search_indexed_sorted.
Qed.

Lemma filter_none {A} (f : A -> bool) (l : list A) :
  Forall (fun x => f x = false) l -> List.filter f l = [].
Proof.
  induction 1 as [| x l Hx Hl IH]; simpl; [reflexivity |]. now rewrite Hx.
Qed.

Lemma search_empty_query (e : BM25.Engine Metadata) (maxResults : nat) :
  BM25.search idf e [] maxResults = [].
Proof.
  unfold BM25.search, BM25.search_indexed.
  rewrite filter_none; [now destruct maxResults |].
  eapply Forall_impl; [apply scored_entries |].
  intros x (d & _ & Hx). unfold BM25.positive. now rewrite Hx.
Qed.

(** C4. The engine built from no documents exists and holds no
    document, and it answers every search with the empty sequence; every
    engine answers the empty query with the empty sequence. *)
Theorem empty_corpus_and_empty_query :
  (exists e : BM25.Engine Metadata,
      BM25.new_BM25 tokenize [] = e
      /\ BM25.documents e = []
      /\ forall q maxResults, BM25.search idf e q maxResults = [])
  /\ (forall (e : BM25.Engine Metadata) maxResults,
         BM25.search idf e [] maxResults = []).
Proof.
  split.
  - eexists. split; [reflexivity |]. split; [reflexivity |]. intros q maxResults.
    unfold BM25.search, BM25.search_indexed. simpl.
    now destruct maxResults.
  - intros e maxResults. apply search_empty_query.
Qed.

End Ranking.

(** ** The chat based matcher *)

Section ChatMatcher.
Variable h : Host.
Variable request : ChatRequest.
Variable token : CancellationToken.

Lemma find_absent {A} (f : A -> bool) (l : list A) :
  Forall (fun x => f x = false) l -> find f l = None.
Proof.
  induction 1 as [| x l Hx Hl IH]; simpl; [reflexivity |]. now rewrite Hx.
Qed.

(** Closes a path on which [matchedProjectId] is never assigned. *)
Ltac id_stays_undefined :=
  exists None; eexists; split; [destruct (find _ _); reflexivity | now left].

(** The matcher returns what [find] yields for the id it read off the
    reply, and that id is either undefined or the truthy [addin] of a
    truthy, successfully parsed, non-empty reply. *)
Lemma matchOfficeProject_run (w : World) :
  exists matchedProjectId w',
    matchOfficeProject h request token w
    = (Returned (find (fun config => strict_eq_id (id config) matchedProjectId)
                      (catalog h)), w')
    /\ (matchedProjectId = None
        \/ exists text v, chatResponse h request token = Some text
                          /\ JS.truthy_string text = true
                          /\ JSON_parse h text = Returned v
                          /\ get_addin v = matchedProjectId
                          /\ matchedProjectId <> None).
Proof.
  unfold matchOfficeProject, chatResponse, matchMessages, catalog.
  unfold bind at 1 2 3. simpl.
  destruct (getCopilotResponseAsString h _ _ token) as [text |] eqn:Hresp;
    [| unfold bind, ret; simpl; id_stays_undefined].
  destruct (JS.truthy_string text) eqn:Htext;
    [| unfold bind, ret; simpl; id_stays_undefined].
  unfold bind, try_catch, lift_outcome, ret. simpl.
  destruct (JSON_parse h text) as [v | e] eqn:Hparse; simpl;
    [| id_stays_undefined].
  destruct (truthy v) eqn:Hv; simpl; [| id_stays_undefined].
  destruct (get_addin v) as [addin |] eqn:Haddin; simpl; [| id_stays_undefined].
  destruct (truthy addin) eqn:Htruthy; simpl; [| id_stays_undefined].
  exists (Some addin). eexists. split.
  - destruct (find _ _); reflexivity.
  - right. exists text, v. repeat split; auto; discriminate.
Qed.

(** C8. [matchOfficeProject] returns on every reply of the model. It
    returns undefined when the reply is absent or empty, when the reply
    is not valid JSON, when the parsed reply has no [addin] field, and
    when [addin] is no id of the combined catalog. When it returns a
    project, the reply parsed and its [addin] is the id of that project,
    an entry of the combined catalog. *)
Theorem matchOfficeProject_never_throws (w : World) :
  exists result w',
    matchOfficeProject h request token w = (Returned result, w')
    /\ (chatResponse h request token = None
        \/ chatResponse h request token = Some "" -> result = None)
    /\ (forall text e,
           chatResponse h request token = Some text ->
           JSON_parse h text = Thrown e -> result = None)
    /\ (forall text v,
           chatResponse h request token = Some text ->
           JSON_parse h text = Returned v ->
           get_addin v = None -> result = None)
    /\ (forall text v addin,
           chatResponse h request token = Some text ->
           JSON_parse h text = Returned v ->
           get_addin v = Some addin ->
           Forall (fun project => addin <> JStr (id project)) (catalog h) ->
           result = None)
    /\ (forall project,
           result = Some project ->
           exists text v,
             chatResponse h request token = Some text
             /\ JSON_parse h text = Returned v
             /\ get_addin v = Some (JStr (id project))
             /\ In project (catalog h)).
Proof.
  destruct (matchOfficeProject_run w) as (mid & w' & Hrun & Hmid).
  eexists. exists w'. split; [exact Hrun |].
  assert (Hundef : mid = None ->
                   find (fun config => strict_eq_id (id config) mid) (catalog h) = None).
  { intros ->. apply find_absent. apply List.Forall_forall. reflexivity. }
  repeat split.
  - intros Habsent. apply Hundef.
    destruct Hmid as [-> | (text & v & Hresp & Htext & _)]; [reflexivity |].
    destruct Habsent as [Habsent | Habsent]; rewrite Habsent in Hresp;
      [discriminate |]. injection Hresp as <-. discriminate.
  - intros text e Hresp Hparse. apply Hundef.
    destruct Hmid as [-> | (text' & v & Hresp' & _ & Hparse' & _)]; [reflexivity |].
    congruence.
  - intros text v Hresp Hparse Haddin. apply Hundef.
    destruct Hmid as [-> | (text' & v' & Hresp' & _ & Hparse' & Haddin' & _)];
      [reflexivity |]. congruence.
  - intros text v addin Hresp Hparse Haddin Hnone.
    destruct Hmid as [-> | (text' & v' & Hresp' & _ & Hparse' & Haddin' & _)];
      [now apply Hundef |].
    assert (mid = Some addin) as -> by congruence.
    apply find_absent. eapply Forall_impl; [exact Hnone |].
    intros project Hne. simpl. destruct addin; try reflexivity.
    apply String.eqb_neq. intros Heq. apply Hne. now rewrite Heq.
  - intros project Hfound. apply find_some in Hfound as [Hin Heq].
    destruct Hmid as [-> | (text & v & Hresp & _ & Hparse & Haddin & _)];
      [discriminate |].
    exists text, v. repeat split; try assumption.
    rewrite Haddin. unfold strict_eq_id in Heq.
    destruct mid as [[| | | s | |] |]; try discriminate.
    apply String.eqb_eq in Heq. now rewrite Heq.
Qed.

End ChatMatcher.

(** ** The command handler *)

(** C10. On a request that [isInputHarmful] reports as harmful the
    handler returns the Create command with the request id of the
    telemetry session; the response stream gains the localized
    harmful-input message and nothing else, the only call that leaves
    the extension is [isInputHarmful] itself (no matching, no chat
    interaction, no file tree), and no chat message is recorded. *)
Theorem harmful_input_only_message (c : Consts) (h : Host)
    (request : ChatRequest) (token : CancellationToken) (w : World) :
  isInputHarmful h request token = true ->
  let session :=
    createByParticipant h (officeChatParticipantId c) (OfficeChatCommand_Create c)
                        (location request) in
  exists w',
    officeCreateCommandHandler c h request token w
    = (Returned {| result_command := OfficeChatCommand_Create c;
                   result_requestId := requestId session |}, w')
    /\ stream w'
       = (stream w
          ++ [Markdown (localize h
                "teamstoolkit.chatParticipants.officeAddIn.harmfulInputResponse")])%list
    /\ calls w' = (calls w ++ [Call_isInputHarmful request])%list
    /\ chatMessages (telemetryData w') = chatMessages session.
Proof.
  intros Hharmful session.
  unfold officeCreateCommandHandler, officeCreateCommandHandler_body.
  rewrite Hharmful. simpl.
  eexists. split; [reflexivity |]. simpl. repeat split.
Qed.

Lemma harmful_input_only_message_witness :
  isInputHarmful (Demo.host None) Demo.harmfulRequest (Token false) = true
  /\ exists w',
    officeCreateCommandHandler Demo.consts (Demo.host None)
                               Demo.harmfulRequest (Token false) Demo.world
    = (Returned {| result_command := "create"; result_requestId := "req-1" |}, w')
    /\ stream w'
       = [Markdown "teamstoolkit.chatParticipants.officeAddIn.harmfulInputResponse"]
    /\ calls w' = [Call_isInputHarmful Demo.harmfulRequest]
    /\ chatMessages (telemetryData w') = [].
Proof.
  split; [reflexivity |].
  apply (harmful_input_only_message Demo.consts (Demo.host None)
           Demo.harmfulRequest (Token false) Demo.world).
  reflexivity.
Defined.

(** ** Runs on the example catalog *)

Example example_search_scores :
  map (fun d => (Qred (BM25.score d), id (BM25.metadata (BM25.document d))))
      (matchedDocuments Demo.retrieval Demo.templates Demo.samples
                        Demo.request)
  = [(59 # 15, "excel-cf"); (3 # 5, "excel-chart")].
Proof. vm_compute. reflexivity. Qed.

(** The scenario of section 8 of the specification: for the query
    "excel function" document B ranks first, document A second, and
    document C is left out. *)
Example example_spec_scenario :
  map (fun r => BM25.metadata (BM25.document r))
      (BM25.search Demo.idf_ratio
         (BM25.new_BM25 Tokenizer.words
            [ {| BM25.documentText := "word excel add-in"; BM25.metadata := "A" |};
              {| BM25.documentText := "excel custom function"; BM25.metadata := "B" |};
              {| BM25.documentText := "powerpoint slide generator";
                 BM25.metadata := "C" |} ])
         ["excel"; "function"] 3)
  = ["B"; "A"].
Proof. vm_compute. reflexivity. Qed.

(** C1 fails as stated: on the example catalog the search for "Create an
    Excel custom function" yields two matches, of which exactly one
    scores above 1.0, and the matcher returns undefined. *)
Lemma one_match_above_threshold_rejected :
  count_above_threshold
    (matchedDocuments Demo.retrieval Demo.templates Demo.samples
                      Demo.request) = 1%nat
  /\ matchOfficeProjectByBM25 Demo.retrieval Demo.templates Demo.samples
                              Demo.request = None.
Proof. split; vm_compute; reflexivity. Qed.

Example example_single_match_accepted :
  id <$> matchOfficeProjectByBM25 Demo.retrieval Demo.templates Demo.samples
           {| prompt := "a task pane for Word"; location := "panel" |}
  = Some "word-taskpane".
Proof. vm_compute. reflexivity. Qed.

Example example_chat_match :
  fst (matchOfficeProject (Demo.host (Some "addin: excel-cf")) Demo.request
                          (Token false) Demo.world)
  = Returned (nth_error (catalog (Demo.host None)) 1).
Proof. vm_compute. reflexivity. Qed.

Example example_chat_unknown_id :
  fst (matchOfficeProject (Demo.host (Some "addin: teams-bot")) Demo.request
                          (Token false) Demo.world)
  = Returned None.
Proof. vm_compute. reflexivity. Qed.

Example example_chat_invalid_json :
  fst (matchOfficeProject (Demo.host (Some "Sorry, I cannot help.")) Demo.request
                          (Token false) Demo.world)
  = Returned None.
Proof. vm_compute. reflexivity. Qed.

(* ================================================================= *)
(** * Further properties of the code *)

(** ** The catalogs *)

Lemma sample_is_office_iff (s : SampleConfig) :
  sample_is_office s = true
  <-> In "Word" (sample_types s) \/ In "Excel" (sample_types s)
      \/ In "Powerpoint" (sample_types s).
Proof.
  split; [apply sample_is_office_types |].
  unfold sample_is_office. rewrite !orb_true_iff, !includes_In. tauto.
Qed.

(** X1. [getOfficeSampleMetadata] keeps exactly the samples whose types
    hold the literal "Word", "Excel" or "Powerpoint": an entry is in the
    result if and only if it is the metadata of such a sample. *)
Theorem getOfficeSampleMetadata_selects (samples : list SampleConfig)
    (m : ProjectMetadata) :
  In m (getOfficeSampleMetadata samples)
  <-> exists s, In s samples
                /\ (In "Word" (sample_types s) \/ In "Excel" (sample_types s)
                    \/ In "Powerpoint" (sample_types s))
                /\ m = sample_metadata s.
Proof.
  rewrite getOfficeSampleMetadata_filter, in_map_iff. split.
  - intros (s & <- & Hs). apply filter_In in Hs as [Hin Hoffice].
    exists s. repeat split; [assumption | now apply sample_is_office_iff].
  - intros (s & Hin & Htypes & ->). exists s. split; [reflexivity |].
    apply filter_In. split; [assumption | now apply sample_is_office_iff].
Qed.

Lemma catalog_ids (templates : list OfficeTemplateConfig) (samples : list SampleConfig) :
  map id (allOfficeProjectMetadata templates samples)
  = (map config_id templates
     ++ map sample_id (List.filter sample_is_office samples))%list.
Proof.
  unfold allOfficeProjectMetadata, getOfficeTemplateMetadata.
  rewrite getOfficeSampleMetadata_filter, map_app, !map_map. reflexivity.
Qed.

(** X2. The catalogs keep their ids apart: when the template ids are
    pairwise distinct, the sample ids are pairwise distinct and no
    template shares its id with a sample, no two entries of the combined
    catalog have the same id. *)
Theorem catalog_ids_distinct
    (templates : list OfficeTemplateConfig) (samples : list SampleConfig) :
  List.NoDup (map config_id templates) ->
  List.NoDup (map sample_id samples) ->
  (forall config sample,
      In config templates -> In sample samples ->
      config_id config <> sample_id sample) ->
  List.NoDup (map id (allOfficeProjectMetadata templates samples)).
Proof.
  intros Ht Hs Hapart. rewrite catalog_ids.
  assert (Hsel : List.NoDup (map sample_id (List.filter sample_is_office samples))).
  { clear Hapart. induction samples as [| s samples IH]; simpl; [constructor |].
    inversion Hs as [| ? ? Hnotin Hrest]; subst.
    destruct (sample_is_office s); simpl; [| now apply IH].
    constructor; [| now apply IH].
    intros Hin. apply Hnotin. apply in_map_iff in Hin as (s' & Heq & Hs').
    apply filter_In in Hs' as [Hs' _]. apply in_map_iff. now exists s'. }
  clear Hs. induction templates as [| c templates IH]; simpl; [assumption |].
  inversion Ht as [| ? ? Hnotin Hrest]; subst. constructor.
  - intros Hin. apply in_app_iff in Hin as [Hin | Hin]; [contradiction |].
    apply in_map_iff in Hin as (s & Heq & Hsin). apply filter_In in Hsin as [Hsin _].
    apply (Hapart c s); [now left | assumption | now symmetry].
  - apply IH; [assumption |]. intros config sample Hc. apply Hapart. now right.
Qed.

Lemma catalog_ids_distinct_witness :
  List.NoDup (map id (allOfficeProjectMetadata Demo.templates Demo.samples)).
Proof.
  apply (catalog_ids_distinct Demo.templates Demo.samples).
  - repeat constructor; simpl; intuition discriminate.
  - repeat constructor; simpl; intuition discriminate.
  - intros config sample [<- | [<- | []]] [<- | [<- | []]]; discriminate.
Defined.

(** X3. In the combined catalog the [data] object tells the two kinds
    apart: an entry of type "template" always carries [data], an entry
    of type "sample" never does. *)
Theorem catalog_data_by_type
    (templates : list OfficeTemplateConfig) (samples : list SampleConfig) :
  Forall (fun m => (type m = "template" <-> data m <> None)
                   /\ (type m = "sample" <-> data m = None))
         (allOfficeProjectMetadata templates samples).
Proof.
  apply List.Forall_forall. intros m Hm. unfold allOfficeProjectMetadata in Hm.
  apply in_app_iff in Hm as [Hm | Hm].
  - apply template_entry_shape in Hm as (config & _ & ->). simpl.
    repeat split; try discriminate; intros H; congruence.
  - apply sample_entry_shape in Hm as (s & _ & _ & ->). simpl.
    repeat split; try discriminate; intros H; congruence.
Qed.

(** ** The chat based matcher *)

Section ChatMatcherEffects.
Variable h : Host.
Variable request : ChatRequest.
Variable token : CancellationToken.

(** The matcher is [find] on the id read off the reply, and it leaves
    the world [world_after_match]. *)
Lemma matchOfficeProject_spec (w : World) :
  matchOfficeProject h request token w
  = (Returned (find (fun config => strict_eq_id (id config) (replyAddin h request token))
                    (catalog h)),
     world_after_match h request w).
Proof.
  assert (Hworld : forall A (x : A) (c1 c2 : HostCall) (t : ChatTelemetryData),
             (x, {| stream := stream w; sent := sent w; telemetryData := t;
                    calls := ((calls w ++ [c1]) ++ [c2])%list |})
             = (x, {| stream := stream w; sent := sent w; telemetryData := t;
                      calls := (calls w ++ [c1; c2])%list |})).
  { intros. now rewrite <- app_assoc. }
  unfold world_after_match, replyAddin, matchOfficeProject, chatResponse,
    matchMessages, catalog.
  unfold bind at 1 2 3. simpl.
  destruct (getCopilotResponseAsString h _ _ token) as [text |];
    [| unfold bind, ret; simpl; destruct (find _ _); apply Hworld].
  destruct (JS.truthy_string text);
    [| unfold bind, ret; simpl; destruct (find _ _); apply Hworld].
  unfold bind, try_catch, lift_outcome, ret. simpl.
  destruct (JSON_parse h text) as [v | e]; simpl;
    [| destruct (find _ _); apply Hworld].
  destruct (truthy v); simpl; [| destruct (find _ _); apply Hworld].
  destruct (get_addin v) as [addin |]; simpl; [| destruct (find _ _); apply Hworld].
  destruct (truthy addin); simpl; destruct (find _ _); apply Hworld.
Qed.

Lemma replyAddin_string (text : string) (fields : list (string * json)) (s : string) :
  chatResponse h request token = Some text ->
  text <> "" ->
  JSON_parse h text = Returned (JObj fields) ->
  assoc "addin" fields = Some (JStr s) ->
  s <> "" ->
  replyAddin h request token = Some (JStr s).
Proof.
  intros Hresp Htext Hparse Haddin Hs. unfold replyAddin.
  rewrite Hresp. destruct text; [contradiction |]. simpl.
  rewrite Hparse. simpl. rewrite Haddin. destruct s; [contradiction |]. reflexivity.
Qed.

Lemma find_first {A} (f : A -> bool) (l : list A) (x : A) :
  In x l -> f x = true ->
  exists y before after,
    find f l = Some y /\ f y = true
    /\ l = (before ++ y :: after)%list
    /\ Forall (fun z => f z = false) before.
Proof.
  induction l as [| a l IH]; intros Hin Hf; [contradiction |]. simpl.
  destruct (f a) eqn:Ha.
  - exists a, [], l. repeat split; auto.
  - destruct Hin as [-> | Hin]; [congruence |].
    destruct (IH Hin Hf) as (y & before & after & Hfind & Hy & -> & Hbefore).
    exists y, (a :: before), after. repeat split; auto.
Qed.

(** X4. When the reply is non-empty JSON whose [addin] is a non-empty
    string that is the id of a catalog entry, the matcher returns the
    first entry of the combined catalog that has this id. *)
Theorem matchOfficeProject_finds_named_entry (w : World)
    (text : string) (fields : list (string * json)) (s : string)
    (project : ProjectMetadata) :
  chatResponse h request token = Some text ->
  text <> "" ->
  JSON_parse h text = Returned (JObj fields) ->
  assoc "addin" fields = Some (JStr s) ->
  s <> "" ->
  In project (catalog h) ->
  id project = s ->
  exists found before after,
    fst (matchOfficeProject h request token w) = Returned (Some found)
    /\ id found = s
    /\ catalog h = (before ++ found :: after)%list
    /\ Forall (fun p => id p <> s) before.
Proof.
  intros Hresp Htext Hparse Haddin Hs Hin Hid.
  rewrite matchOfficeProject_spec. simpl.
  rewrite (replyAddin_string text fields s) by assumption.
  destruct (find_first (fun config => strict_eq_id (id config) (Some (JStr s)))
                       (catalog h) project Hin) as
    (found & before & after & Hfind & Hfound & Hcat & Hbefore).
  { simpl. rewrite Hid. apply String.eqb_refl. }
  exists found, before, after. simpl in Hfound. apply String.eqb_eq in Hfound.
  repeat split; try assumption; [now rewrite Hfind |].
  eapply Forall_impl; [exact Hbefore |]. simpl. intros p Hp. now apply String.eqb_neq.
Qed.

(** X5. Whatever the model replies, the matcher writes nothing to the
    response stream and sends no telemetry event; it records the system
    prompt built from the whole catalog and the user's prompt in the
    telemetry session, and its only calls are the read of the sample
    collection and one request to "copilot-gpt-4" with these two
    messages. *)
Theorem matchOfficeProject_effects (w : World) :
  let w' := snd (matchOfficeProject h request token w) in
  stream w' = stream w
  /\ sent w' = sent w
  /\ calls w'
     = (calls w ++ [ Call_SampleCollection;
                     Call_getCopilotResponseAsString "copilot-gpt-4"
                       [ getOfficeProjectMatchSystemPrompt h (catalog h);
                         UserMessage (prompt request) ] ])%list
  /\ chatMessages (telemetryData w')
     = (chatMessages (telemetryData w)
        ++ [ getOfficeProjectMatchSystemPrompt h (catalog h);
             UserMessage (prompt request) ])%list
  /\ requestId (telemetryData w') = requestId (telemetryData w).
Proof.
  simpl. rewrite matchOfficeProject_spec. simpl. repeat split.
Qed.

(** X6. A falsy [addin] (the empty string, 0, false or null) is treated
    as no answer: the matcher returns undefined, also when a catalog
    entry has the empty id. *)
Theorem matchOfficeProject_ignores_falsy_addin (w : World)
    (text : string) (v addin : json) :
  chatResponse h request token = Some text ->
  JSON_parse h text = Returned v ->
  get_addin v = Some addin ->
  truthy addin = false ->
  fst (matchOfficeProject h request token w) = Returned None.
Proof.
  intros Hresp Hparse Haddin Hfalsy. rewrite matchOfficeProject_spec. simpl.
  assert (Hid : replyAddin h request token = None).
  { unfold replyAddin. rewrite Hresp. destruct (JS.truthy_string text); [| reflexivity].
    rewrite Hparse. destruct (truthy v); [| reflexivity].
    now rewrite Haddin, Hfalsy. }
  rewrite Hid. f_equal. apply find_absent. apply List.Forall_forall. reflexivity.
Qed.

(** X7. Templates shadow samples: when the reply names an id that a
    template has, the matcher returns the metadata of a template with
    that id, whatever the sample collection holds. *)
Theorem matchOfficeProject_prefers_template (w : World)
    (text : string) (fields : list (string * json)) (s : string)
    (config : OfficeTemplateConfig) :
  chatResponse h request token = Some text ->
  text <> "" ->
  JSON_parse h text = Returned (JObj fields) ->
  assoc "addin" fields = Some (JStr s) ->
  s <> "" ->
  In config (officeTemplateMeatdata h) ->
  config_id config = s ->
  exists chosen,
    fst (matchOfficeProject h request token w)
    = Returned (Some (template_metadata chosen))
    /\ In chosen (officeTemplateMeatdata h)
    /\ config_id chosen = s.
Proof.
  intros Hresp Htext Hparse Haddin Hs Hin Hid.
  rewrite matchOfficeProject_spec. simpl.
  rewrite (replyAddin_string text fields s) by assumption.
  unfold catalog, allOfficeProjectMetadata, getOfficeTemplateMetadata.
  generalize (getOfficeSampleMetadata (SampleCollection_samples h)). intros rest.
  induction (officeTemplateMeatdata h) as [| c l IH]; [contradiction |]. simpl.
  destruct (String.eqb (config_id c) s) eqn:E.
  - exists c. apply String.eqb_eq in E. repeat split; simpl; auto.
  - destruct Hin as [-> | Hin]; [apply String.eqb_neq in E; contradiction |].
    destruct (IH Hin) as (chosen & Hfound & Hchosen & Hcid).
    exists chosen. repeat split; simpl; auto.
Qed.

End ChatMatcherEffects.

Lemma matchOfficeProject_finds_named_entry_witness :
  exists found,
    fst (matchOfficeProject (Demo.host (Some "addin: excel-cf")) Demo.request
                            (Token false) Demo.world) = Returned (Some found)
    /\ id found = "excel-cf".
Proof.
  destruct (matchOfficeProject_finds_named_entry
              (Demo.host (Some "addin: excel-cf")) Demo.request (Token false)
              Demo.world "addin: excel-cf" [("addin", JStr "excel-cf")] "excel-cf"
              (template_metadata
                 {| config_id := "excel-cf"; config_name := "Excel Custom Function";
                    config_description := "Excel custom function for a workbook.";
                    config_project_type := "office-addin-type";
                    config_addin_host := "excel" |}))
    as (found & _ & _ & Hrun & Hid & _).
  - reflexivity.
  - discriminate.
  - reflexivity.
  - reflexivity.
  - discriminate.
  - simpl. auto.
  - reflexivity.
  - now exists found.
Defined.

Lemma matchOfficeProject_ignores_falsy_addin_witness :
  fst (matchOfficeProject
         (with_JSON_parse (Demo.host (Some "reply"))
                          (fun _ => Returned (JObj [("addin", JStr "")])))
         Demo.request (Token false) Demo.world)
  = Returned None.
Proof.
  apply (matchOfficeProject_ignores_falsy_addin
           (with_JSON_parse (Demo.host (Some "reply"))
                            (fun _ => Returned (JObj [("addin", JStr "")])))
           Demo.request (Token false) Demo.world "reply"
           (JObj [("addin", JStr "")]) (JStr "")); reflexivity.
Defined.

Lemma matchOfficeProject_prefers_template_witness :
  exists chosen,
    fst (matchOfficeProject (Demo.host (Some "addin: excel-cf")) Demo.request
                            (Token false) Demo.world)
    = Returned (Some (template_metadata chosen))
    /\ In chosen Demo.templates
    /\ config_id chosen = "excel-cf".
Proof.
  apply (matchOfficeProject_prefers_template
           (Demo.host (Some "addin: excel-cf")) Demo.request (Token false)
           Demo.world "addin: excel-cf" [("addin", JStr "excel-cf")] "excel-cf"
           {| config_id := "excel-cf"; config_name := "Excel Custom Function";
              config_description := "Excel custom function for a workbook.";
              config_project_type := "office-addin-type";
              config_addin_host := "excel" |});
    try reflexivity; try discriminate.
  simpl. auto.
Defined.

(** ** The command handler, branch by branch *)

Section HandlerBranches.
Variable c : Consts.
Variable h : Host.
Variable request : ChatRequest.
Variable token : CancellationToken.

Lemma matched_is_found (w : World) (matched : option ProjectMetadata) :
  (forall w0, fst (matchOfficeProject h request token w0) = Returned matched) ->
  find (fun config => strict_eq_id (id config) (replyAddin h request token)) (catalog h)
  = matched.
Proof.
  intros Hmatch. specialize (Hmatch w). rewrite matchOfficeProject_spec in Hmatch.
  simpl in Hmatch. now injection Hmatch.
Qed.

(** Runs the handler up to the outcome of the matcher. *)
Ltac enter_handler Hharm Hfind :=
  cbv [officeCreateCommandHandler officeCreateCommandHandler_body];
  rewrite Hharm; cbn [negb];
  cbv [bind setTelemetry getTelemetry sendTelemetryEvent call];
  rewrite matchOfficeProject_spec, Hfind; simpl.

(** X8. When the request is not harmful and the matcher finds nothing,
    the handler returns what the planner returns and streams what the
    planner streams. The planner receives the session with the two
    matcher messages recorded; the handler itself neither marks the
    session complete nor sends the [CopilotChat] event: the only event
    it sends is [CopilotChatStart]. *)
Theorem no_match_delegates_to_planner (w : World) :
  isInputHarmful h request token = false ->
  (forall w0, fst (matchOfficeProject h request token w0) = Returned None) ->
  exists t w',
    officeCreateCommandHandler c h request token w
    = (Returned (fst (Planner_processRequest h (UserMessage (prompt request)) request t)),
       w')
    /\ requestId t = requestId (sessionOf c h request)
    /\ chatMessages t
       = (chatMessages (sessionOf c h request) ++ matchMessages h request)%list
    /\ stream w'
       = (stream w
          ++ snd (Planner_processRequest h (UserMessage (prompt request)) request t))%list
    /\ sent w'
       = (sent w ++ [(CopilotChatStart, properties (sessionOf c h request), None)])%list
    /\ complete (telemetryData w') = complete (sessionOf c h request)
    /\ calls w'
       = (calls w
          ++ [ Call_isInputHarmful request;
               Call_SampleCollection;
               Call_getCopilotResponseAsString "copilot-gpt-4" (matchMessages h request);
               Call_Planner_processRequest (UserMessage (prompt request)) ])%list.
Proof.
  intros Hharm Hmatch. pose proof (matched_is_found w None Hmatch) as Hfind.
  enter_handler Hharm Hfind.
  match goal with
  | |- context [Planner_processRequest h ?m ?r ?t] =>
      exists t; destruct (Planner_processRequest h m r t) as [result parts] eqn:Hplan
  end.
  simpl. eexists. split; [reflexivity |]. simpl. unfold sessionOf.
  repeat split. now rewrite <- !app_assoc.
Qed.

(** X9. When the request is not harmful and the matcher finds a sample,
    the handler streams the model's description of the project, then the
    file tree of the sample, then one button that creates the sample
    from the folder [showFileTree] returned; it records the describing
    messages, marks the session complete, sends [CopilotChat] after
    [CopilotChatStart], and returns the Create result. *)
Theorem matched_sample_response (w : World) (project : ProjectMetadata) :
  isInputHarmful h request token = false ->
  (forall w0, fst (matchOfficeProject h request token w0) = Returned (Some project)) ->
  type project = "sample" ->
  exists w' meas,
    officeCreateCommandHandler c h request token w
    = (Returned (createResult c h request), w')
    /\ stream w'
       = (stream w
          ++ verbatimCopilotInteraction h "copilot-gpt-3.5-turbo"
               (describeMessages h project) token
          ++ snd (showFileTree h project)
          ++ [ Button (CHAT_CREATE_SAMPLE_COMMAND_ID c) [fst (showFileTree h project)]
                      (localize h "teamstoolkit.chatParticipants.create.sample") ])%list
    /\ chatMessages (telemetryData w')
       = (chatMessages (sessionOf c h request) ++ matchMessages h request
          ++ describeMessages h project)%list
    /\ complete (telemetryData w') = true
    /\ sent w'
       = (sent w ++ [ (CopilotChatStart, properties (sessionOf c h request), None);
                      (CopilotChat, properties (sessionOf c h request), Some meas) ])%list
    /\ calls w'
       = (calls w
          ++ [ Call_isInputHarmful request;
               Call_SampleCollection;
               Call_getCopilotResponseAsString "copilot-gpt-4" (matchMessages h request);
               Call_verbatimCopilotInteraction "copilot-gpt-3.5-turbo"
                                               (describeMessages h project);
               Call_showFileTree project ])%list.
Proof.
  intros Hharm Hmatch Hty.
  pose proof (matched_is_found w (Some project) Hmatch) as Hfind.
  enter_handler Hharm Hfind. rewrite Hty. simpl.
  destruct (showFileTree h project) as [folder tree]. simpl.
  eexists. eexists. split; [reflexivity |]. simpl.
  unfold sessionOf, describeMessages.
  repeat split; now rewrite <- !app_assoc.
Qed.

(** X10. When the request is not harmful and the matcher finds a
    template, the handler streams the model's description, the notice
    that a template was found, the file tree of a project scaffolded
    from the template's [data] in the folder
    [tmp/office-addin-<random>], and one button that creates the project
    from that folder; then it completes the session as for a sample. *)
Theorem matched_template_response (w : World) (project : ProjectMetadata) :
  isInputHarmful h request token = false ->
  (forall w0, fst (matchOfficeProject h request token w0) = Returned (Some project)) ->
  type project = "template" ->
  let appName := "office-addin-" ++ crypto_randomBytes_hex h in
  let folder := path_join h (tmp_dirSync h) appName in
  exists w' meas,
    officeCreateCommandHandler c h request token w
    = (Returned (createResult c h request), w')
    /\ stream w'
       = (stream w
          ++ verbatimCopilotInteraction h "copilot-gpt-3.5-turbo"
               (describeMessages h project) token
          ++ [ Markdown (String (ascii_of_nat 10)
                 "We've found a template project that matches your description. Take a look at it below.");
               FileTree (buildTemplateFileTree_nodes h (data project) (tmp_dirSync h) appName)
                        folder;
               Button (CHAT_CREATE_SAMPLE_COMMAND_ID c) [folder]
                      (localize h "teamstoolkit.chatParticipants.create.template") ])%list
    /\ complete (telemetryData w') = true
    /\ sent w'
       = (sent w ++ [ (CopilotChatStart, properties (sessionOf c h request), None);
                      (CopilotChat, properties (sessionOf c h request), Some meas) ])%list
    /\ calls w'
       = (calls w
          ++ [ Call_isInputHarmful request;
               Call_SampleCollection;
               Call_getCopilotResponseAsString "copilot-gpt-4" (matchMessages h request);
               Call_verbatimCopilotInteraction "copilot-gpt-3.5-turbo"
                                               (describeMessages h project);
               Call_executeCreateCommand (data project) (tmp_dirSync h) appName ])%list.
Proof.
  intros Hharm Hmatch Hty appName folder.
  pose proof (matched_is_found w (Some project) Hmatch) as Hfind.
  enter_handler Hharm Hfind. rewrite Hty. simpl.
  eexists. eexists. split; [reflexivity |]. simpl.
  unfold sessionOf, describeMessages.
  repeat split; now rewrite <- !app_assoc.
Qed.

(** X11. The telemetry of a run is bracketed. The host of this model
    answers every call, so the statement is about the runs in which no
    call of the handler fails: such a run sends [CopilotChatStart]
    first; unless it hands over to the planner (request not harmful,
    nothing matched), it returns the Create result, marks the session
    complete and sends [CopilotChat] as the second and last event. *)
Theorem handler_telemetry_bracket (w : World) :
  exists r w',
    officeCreateCommandHandler c h request token w = (Returned r, w')
    /\ ((isInputHarmful h request token = false
         /\ (forall w0, fst (matchOfficeProject h request token w0) = Returned None)
         /\ sent w'
            = (sent w
               ++ [(CopilotChatStart, properties (sessionOf c h request), None)])%list)
        \/ (r = createResult c h request
            /\ complete (telemetryData w') = true
            /\ exists meas,
                sent w'
                = (sent w
                   ++ [ (CopilotChatStart, properties (sessionOf c h request), None);
                        (CopilotChat, properties (sessionOf c h request),
                         Some meas) ])%list)).
Proof.
  destruct (isInputHarmful h request token) eqn:Hharm.
  - cbv [officeCreateCommandHandler officeCreateCommandHandler_body].
    rewrite Hharm. simpl. eexists. eexists. split; [reflexivity |]. right.
    unfold createResult, sessionOf. simpl. repeat split.
    eexists. now rewrite <- app_assoc.
  - destruct (find (fun config => strict_eq_id (id config) (replyAddin h request token))
                   (catalog h)) as [project |] eqn:Hfind.
    + enter_handler Hharm Hfind.
      destruct (String.eqb (type project) "sample");
        [| destruct (String.eqb (type project) "template")]; simpl;
        try destruct (showFileTree h project) as [folder tree]; simpl;
        (eexists; eexists; split; [reflexivity |]); right;
        unfold createResult, sessionOf; simpl; repeat split;
        eexists; now rewrite <- app_assoc.
    + enter_handler Hharm Hfind.
      match goal with
      | |- context [Planner_processRequest h ?m ?r ?t] =>
          destruct (Planner_processRequest h m r t) as [result parts]
      end.
      simpl. eexists. eexists. split; [reflexivity |]. left. simpl.
      repeat split. intros w0. rewrite matchOfficeProject_spec. simpl. now rewrite Hfind.
Qed.

(** X12. A matched project always gets its button. The matcher returns
    entries of the combined catalog only, and these are of type "sample"
    or "template"; so whenever the request is not harmful and a project
    is matched, the last part the handler streams is a button that runs
    [CHAT_CREATE_SAMPLE_COMMAND_ID] on one folder, and the handler
    returns the Create result. *)
Theorem matched_project_gets_button (w : World) (project : ProjectMetadata) :
  isInputHarmful h request token = false ->
  (forall w0, fst (matchOfficeProject h request token w0) = Returned (Some project)) ->
  exists w' parts folder title,
    officeCreateCommandHandler c h request token w
    = (Returned (createResult c h request), w')
    /\ stream w'
       = (stream w ++ parts
          ++ [Button (CHAT_CREATE_SAMPLE_COMMAND_ID c) [folder] title])%list.
Proof.
  intros Hharm Hmatch.
  pose proof (matched_is_found w (Some project) Hmatch) as Hfind.
  assert (Hty : type project = "template" \/ type project = "sample").
  { apply find_some in Hfind as [Hin _]. unfold catalog, allOfficeProjectMetadata in Hin.
    apply in_app_iff in Hin as [Hin | Hin].
    - apply template_entry_shape in Hin as (config & _ & ->). now left.
    - apply sample_entry_shape in Hin as (s & _ & _ & ->). now right. }
  enter_handler Hharm Hfind. destruct Hty as [Hty | Hty]; rewrite Hty; simpl.
  - eexists. eexists (verbatimCopilotInteraction h _ _ token ++ [_; _])%list.
    eexists. eexists. split; [reflexivity |]. simpl.
    rewrite <- !app_assoc. simpl. reflexivity.
  - destruct (showFileTree h project) as [folder tree]. simpl.
    eexists. eexists (verbatimCopilotInteraction h _ _ token ++ tree)%list.
    eexists. eexists. split; [reflexivity |]. simpl.
    rewrite <- !app_assoc. reflexivity.
Qed.

End HandlerBranches.

Lemma no_match_delegates_to_planner_witness :
  exists r w',
    officeCreateCommandHandler Demo.consts Replies.silent Demo.request (Token false)
                               Demo.world = (Returned r, w')
    /\ sent w' = [(CopilotChatStart, [("command", "create")], None)]
    /\ complete (telemetryData w') = false.
Proof.
  destruct (no_match_delegates_to_planner Demo.consts Replies.silent Demo.request
              (Token false) Demo.world)
    as (t & w' & Hrun & _ & _ & _ & Hsent & Hcomplete & _).
  - reflexivity.
  - intros w0. reflexivity.
  - eexists. exists w'. split; [exact Hrun |]. split; [exact Hsent | exact Hcomplete].
Defined.

Lemma matched_sample_response_witness :
  exists w',
    officeCreateCommandHandler Demo.consts Replies.namesSample Demo.request
                               (Token false) Demo.world
    = (Returned {| result_command := "create"; result_requestId := "req-1" |}, w')
    /\ stream w'
       = [ Streamed "This project ..."; FileTree ["README.md"] "/tmp";
           Button "fx-extension.chat.createSample" ["/tmp/excel-chart"]
                  "teamstoolkit.chatParticipants.create.sample" ].
Proof.
  destruct (matched_sample_response Demo.consts Replies.namesSample Demo.request
              (Token false) Demo.world Replies.excelChart)
    as (w' & meas & Hrun & Hstream & _).
  - reflexivity.
  - intros w0. reflexivity.
  - reflexivity.
  - exists w'. split; [exact Hrun | exact Hstream].
Defined.

Lemma matched_template_response_witness :
  exists w',
    officeCreateCommandHandler Demo.consts Replies.namesTemplate Demo.request
                               (Token false) Demo.world
    = (Returned {| result_command := "create"; result_requestId := "req-1" |}, w')
    /\ calls w'
       = [ Call_isInputHarmful Demo.request;
           Call_SampleCollection;
           Call_getCopilotResponseAsString "copilot-gpt-4"
             (matchMessages Replies.namesTemplate Demo.request);
           Call_verbatimCopilotInteraction "copilot-gpt-3.5-turbo"
             (describeMessages Replies.namesTemplate Replies.excelCf);
           Call_executeCreateCommand (data Replies.excelCf) "/tmp/tmp-1"
                                     "office-addin-0011223344556677" ].
Proof.
  destruct (matched_template_response Demo.consts Replies.namesTemplate Demo.request
              (Token false) Demo.world Replies.excelCf)
    as (w' & meas & Hrun & _ & _ & _ & Hcalls).
  - reflexivity.
  - intros w0. reflexivity.
  - reflexivity.
  - exists w'. split; [exact Hrun | exact Hcalls].
Defined.

Lemma matched_project_gets_button_witness :
  exists w' parts folder title,
    officeCreateCommandHandler Demo.consts Replies.namesSample Demo.request
                               (Token false) Demo.world
    = (Returned (createResult Demo.consts Replies.namesSample Demo.request), w')
    /\ stream w'
       = (stream Demo.world ++ parts
          ++ [Button "fx-extension.chat.createSample" [folder] title])%list.
Proof.
  apply (matched_project_gets_button Demo.consts Replies.namesSample Demo.request
           (Token false) Demo.world Replies.excelChart).
  - reflexivity.
  - intros w0. reflexivity.
Defined.

(** ** The lexical matcher and its catalog *)

Section LexicalMatcher.
Variable r : RetrievalUtil.
Variable templates : list OfficeTemplateConfig.
Variable samples : list SampleConfig.


(** X14. When the search returns documents of the corpus it was given,
    a project accepted by the lexical matcher is an entry of the
    combined catalog. *)
Theorem matchOfficeProjectByBM25_in_catalog (request : ChatRequest)
    (project : ProjectMetadata) :
  (forall docs q limit,
      Forall (fun d => In (BM25.document d) docs) (BM25_search r docs q limit)) ->
  matchOfficeProjectByBM25 r templates samples request = Some project ->
  In project (allOfficeProjectMetadata templates samples).
Proof.
  intros Hsearch Hmatch. unfold matchOfficeProjectByBM25 in Hmatch.
  destruct (matchedDocuments r templates samples request) as [| first rest] eqn:Hdocs;
    [discriminate |].
  simpl in Hmatch.
  destruct ((length rest =? 0)%nat && BM25.Qlt_bool 1 (BM25.score first));
    [| discriminate].
  injection Hmatch as <-.
  unfold matchedDocuments in Hdocs.
  specialize (Hsearch (documents_of r (allOfficeProjectMetadata templates samples))
                      (query_of r request) 3%nat).
  rewrite Hdocs in Hsearch. apply Forall_cons_iff in Hsearch as [Hin _].
  unfold documents_of in Hin. apply in_map_iff in Hin as (m & <- & Hm). exact Hm.
Qed.

End LexicalMatcher.

(** The engine of the specification returns documents of its corpus. *)
Lemma spec_search_in_corpus (stopWords : list string) (idf : nat -> nat -> Q)
    (docs : list (BM25.DocumentWithmetadata ProjectMetadata))
    (q : list string) (limit : nat) :
  Forall (fun d => In (BM25.document d) docs)
         (BM25_search (spec_retrieval stopWords idf) docs q limit).
Proof.
  simpl. unfold BM25.search. apply List.Forall_map.
  eapply Forall_impl.
  - apply search_indexed_Forall. apply scored_reports.
  - intros x (d & Hd & Hx). rewrite Hx.
    apply list_elem_of_lookup_2, list_elem_of_In in Hd. simpl in Hd.
    apply in_map_iff in Hd as (doc & <- & Hdoc). exact Hdoc.
Qed.

(** Compares two texts unit by unit. *)
Ltac same_up_to_case :=
  repeat first
    [ apply JS.same_empty
    | apply JS.same_unit
    | apply JS.same_capital_left;
      [split; [unfold JS.capital; vm_compute; lia | reflexivity] |]
    | apply JS.same_capital_right;
      [split; [unfold JS.capital; vm_compute; lia | reflexivity] |] ].


Lemma matchOfficeProjectByBM25_in_catalog_witness :
  In (template_metadata
        {| config_id := "word-taskpane"; config_name := "Word Taskpane Add-in";
           config_description := "A Word add-in with a task pane.";
           config_project_type := "office-addin-type"; config_addin_host := "word" |})
     (allOfficeProjectMetadata Demo.templates Demo.samples).
Proof.
  apply (matchOfficeProjectByBM25_in_catalog Demo.retrieval Demo.templates Demo.samples
           {| prompt := "a task pane for Word"; location := "panel" |}).
  - intros docs q limit. apply spec_search_in_corpus.
  - vm_compute. reflexivity.
Defined.

(** ** Searching, slicing and replacing in strings *)

Section StringFacts.
Implicit Types s p q r pre mid post : string.

Lemma app_cons (c : ascii) s r : (String c s ++ r) = String c (s ++ r).
Proof. reflexivity. Qed.

Lemma app_empty_l s : ("" ++ s) = s.
Proof. reflexivity. Qed.

Lemma app_empty_r s : (s ++ "") = s.
Proof. induction s as [| c s IH]; [reflexivity |]. now rewrite app_cons, IH. Qed.

Lemma app_assoc_string s q r : ((s ++ q) ++ r) = (s ++ q ++ r).
Proof. induction s as [| c s IH]; [reflexivity |]. now rewrite !app_cons, IH. Qed.

Lemma length_app_string s r :
  String.length (s ++ r) = (String.length s + String.length r)%nat.
Proof. induction s as [| c s IH]; [reflexivity |]. rewrite app_cons. simpl. now rewrite IH. Qed.

Lemma prefix_empty s : String.prefix "" s = true.
Proof. now destruct s. Qed.

Lemma prefix_cons (c d : ascii) p s :
  String.prefix (String c p) (String d s)
  = if ascii_dec c d then String.prefix p s else false.
Proof. reflexivity. Qed.

Lemma prefix_app p r : String.prefix p (p ++ r) = true.
Proof.
  induction p as [| c p IH]; [apply prefix_empty |].
  rewrite app_cons, prefix_cons. now destruct (ascii_dec c c).
Qed.

Lemma prefix_trans p q s :
  String.prefix p q = true -> String.prefix q s = true -> String.prefix p s = true.
Proof.
  revert q s. induction p as [| c p IH]; intros q s Hpq Hqs; [apply prefix_empty |].
  destruct q as [| d q]; [discriminate |]. destruct s as [| e s]; [discriminate |].
  rewrite prefix_cons in *.
  destruct (ascii_dec c d) as [-> |]; [| discriminate].
  destruct (ascii_dec d e) as [-> |]; [| discriminate].
  now apply (IH q s).
Qed.

(** A pattern no longer than [s] is matched inside [s], whatever follows. *)
Lemma prefix_app_long p s r :
  (String.length p <= String.length s)%nat ->
  String.prefix p (s ++ r) = String.prefix p s.
Proof.
  revert s. induction p as [| c p IH]; intros s Hlen.
  - now rewrite !prefix_empty.
  - destruct s as [| d s]; [simpl in Hlen; lia |].
    rewrite app_cons, !prefix_cons. destruct (ascii_dec c d); [| reflexivity].
    apply IH. simpl in Hlen. lia.
Qed.

Lemma indexOf_nat_unfold p s :
  Str.indexOf_nat p s
  = if String.prefix p s then Some 0%nat
    else match s with
         | EmptyString => None
         | String _ s' => option_map S (Str.indexOf_nat p s')
         end.
Proof. now destruct s. Qed.

Lemma indexOf_nat_here p s : String.prefix p s = true -> Str.indexOf_nat p s = Some 0%nat.
Proof. intros H. now rewrite indexOf_nat_unfold, H. Qed.

Lemma indexOf_nat_later p (c : ascii) s (n : nat) :
  Str.indexOf_nat p (String c s) = Some (S n)
  <-> String.prefix p (String c s) = false /\ Str.indexOf_nat p s = Some n.
Proof.
  rewrite indexOf_nat_unfold. destruct (String.prefix p (String c s)).
  - split; [discriminate | intros [? _]; discriminate].
  - destruct (Str.indexOf_nat p s) as [m |]; simpl; split.
    + intros [= ->]. auto.
    + intros [_ [= ->]]. reflexivity.
    + discriminate.
    + intros [_ ?]. discriminate.
Qed.

(** Where [p] first occurs, a longer pattern that starts with [p] and
    matches there first occurs too. *)
Lemma indexOf_nat_extend p q pre r :
  Str.indexOf_nat p (pre ++ r) = Some (String.length pre) ->
  String.prefix p q = true ->
  String.prefix q r = true ->
  Str.indexOf_nat q (pre ++ r) = Some (String.length pre).
Proof.
  intros Hp Hpq Hqr. induction pre as [| c pre IH].
  - rewrite app_empty_l. now apply indexOf_nat_here.
  - rewrite app_cons in *. simpl String.length in *.
    apply indexOf_nat_later in Hp as [Hnot Hp]. apply indexOf_nat_later. split.
    + destruct (String.prefix q (String c (pre ++ r))) eqn:E; [| reflexivity].
      rewrite (prefix_trans p q _ Hpq E) in Hnot. discriminate.
    + now apply IH.
Qed.

(** The first occurrence of [p] does not move when the text after it
    changes. *)
Lemma indexOf_nat_tail p pre r r' :
  Str.indexOf_nat p (pre ++ p ++ r) = Some (String.length pre) ->
  Str.indexOf_nat p (pre ++ p ++ r') = Some (String.length pre).
Proof.
  intros Hp. induction pre as [| c pre IH].
  - rewrite app_empty_l. apply indexOf_nat_here, prefix_app.
  - rewrite app_cons in *. simpl String.length in *.
    apply indexOf_nat_later in Hp as [Hnot Hp]. apply indexOf_nat_later.
    split; [| now apply IH].
    assert (Hlong : (String.length p <= String.length (String c (pre ++ p)))%nat).
    { simpl. rewrite length_app_string. lia. }
    rewrite <- app_assoc_string, <- app_cons in Hnot |- *.
    rewrite prefix_app_long in Hnot |- * by exact Hlong. exact Hnot.
Qed.

Lemma lastIndexOf_nat_char (c : ascii) pre post :
  Str.lastIndexOf_nat (String c "") post = None ->
  Str.lastIndexOf_nat (String c "") (pre ++ String c post) = Some (String.length pre).
Proof.
  intros Hpost. induction pre as [| d pre IH].
  - rewrite app_empty_l. simpl. rewrite Hpost.
    destruct (ascii_dec c c); [| contradiction]. now rewrite prefix_empty.
  - rewrite app_cons. simpl. now rewrite IH.
Qed.

Lemma substring_zero (n : nat) s : String.substring n 0 s = "".
Proof.
  revert n. induction s as [| c s IH]; intros [| n]; simpl; auto.
Qed.

Lemma substring_all s : String.substring 0 (String.length s) s = s.
Proof. induction s as [| c s IH]; simpl; [reflexivity | now rewrite IH]. Qed.

Lemma substring_head pre r : String.substring 0 (String.length pre) (pre ++ r) = pre.
Proof.
  induction pre as [| c pre IH]; [apply substring_zero |].
  rewrite app_cons. simpl. now rewrite IH.
Qed.

Lemma substring_skip pre r (m : nat) :
  String.substring (String.length pre) m (pre ++ r) = String.substring 0 m r.
Proof. induction pre as [| c pre IH]; [reflexivity |]. rewrite app_cons. simpl. apply IH. Qed.

Lemma substring_middle pre mid post :
  String.substring (String.length pre) (String.length mid) (pre ++ mid ++ post) = mid.
Proof. rewrite substring_skip. apply substring_head. Qed.

Lemma substring_tail pre post :
  String.substring (String.length pre) (String.length post) (pre ++ post) = post.
Proof. rewrite substring_skip. apply substring_all. Qed.

Lemma slice_in_range s (a b : nat) :
  (a <= b <= String.length s)%nat ->
  Str.slice s (Z.of_nat a) (Z.of_nat b) = String.substring a (b - a) s.
Proof.
  intros Hab. unfold Str.slice, Str.relative_index.
  destruct (Z.ltb_spec (Z.of_nat a) 0); [lia |].
  destruct (Z.ltb_spec (Z.of_nat b) 0); [lia |].
  f_equal; lia.
Qed.

Lemma slice_middle pre mid post :
  Str.slice (pre ++ mid ++ post) (Z.of_nat (String.length pre))
            (Z.of_nat (String.length pre + String.length mid))
  = mid.
Proof.
  rewrite slice_in_range.
  - replace (String.length pre + String.length mid - String.length pre)%nat
      with (String.length mid) by lia.
    apply substring_middle.
  - rewrite !length_app_string. lia.
Qed.

(** From the last character backwards to an end that lies before it:
    the empty string. *)
Lemma slice_from_last_empty s (e : Z) :
  (0 <= e < Z.of_nat (String.length s))%Z -> Str.slice s (-1) e = "".
Proof.
  intros He. unfold Str.slice, Str.relative_index.
  change (-1 <? 0)%Z with true. cbv iota.
  destruct (Z.ltb_spec e 0); [lia |].
  match goal with
  | |- String.substring _ ?m _ = _ => replace m with 0%nat by lia
  end.
  apply substring_zero.
Qed.

Lemma GetSubstitution_dollar_free (m b a r : string) :
  Str.dollar_free r = true -> Str.GetSubstitution m b a r = r.
Proof.
  induction r as [| c r IH]; [reflexivity |]. simpl.
  destruct (Ascii.eqb c "$"); [discriminate |]. simpl. intros H. now rewrite IH.
Qed.

Lemma replace_first pre q post r :
  Str.indexOf_nat q (pre ++ q ++ post) = Some (String.length pre) ->
  Str.replace (pre ++ q ++ post) q r
  = pre ++ Str.GetSubstitution q pre post r ++ post.
Proof.
  intros Hq. unfold Str.replace. rewrite Hq. cbv zeta.
  rewrite substring_head.
  replace (String.length (pre ++ q ++ post) - (String.length pre + String.length q))%nat
    with (String.length post) by (rewrite !length_app_string; lia).
  assert (Htail : String.substring (String.length pre + String.length q)
                                   (String.length post) (pre ++ q ++ post) = post).
  { rewrite <- length_app_string, <- app_assoc_string. apply substring_tail. }
  now rewrite Htail.
Qed.

Lemma replace_empty_pattern s r :
  Str.replace s "" r = Str.GetSubstitution "" "" s r ++ s.
Proof.
  unfold Str.replace. rewrite indexOf_nat_here by apply prefix_empty. cbv zeta.
  simpl String.length. rewrite Nat.sub_0_r, substring_zero, substring_all. reflexivity.
Qed.

End StringFacts.

(** ** Merging generated code into the task pane *)

Section TaskpaneText.
Implicit Types pre body post code rest before between items : string.

Lemma replaceRunFunction_between pre body post code :
  Str.indexOf_nat Files.runHeader (pre ++ Files.runHeader ++ body ++ "}" ++ post)
  = Some (String.length pre) ->
  Str.lastIndexOf_nat "}" post = None ->
  Str.dollar_free code = true ->
  Files.replaceRunFunction (pre ++ Files.runHeader ++ body ++ "}" ++ post) code
  = pre ++ code ++ post.
Proof.
  intros Hheader Hbrace Hcode.
  set (mid := Files.runHeader ++ body ++ "}").
  assert (Hshape : pre ++ Files.runHeader ++ body ++ "}" ++ post = pre ++ mid ++ post).
  { unfold mid. now rewrite !app_assoc_string. }
  assert (Hlast : Str.lastIndexOf_nat "}" (pre ++ Files.runHeader ++ body ++ "}" ++ post)
                  = Some (String.length (pre ++ Files.runHeader ++ body))).
  { replace (pre ++ Files.runHeader ++ body ++ "}" ++ post)
      with ((pre ++ Files.runHeader ++ body) ++ String "}" post)
      by (now rewrite !app_assoc_string).
    now apply lastIndexOf_nat_char. }
  unfold Files.replaceRunFunction, Str.indexOf, Str.lastIndexOf.
  rewrite Hheader, Hlast. unfold Str.index_or_minus_one.
  replace (Z.of_nat (String.length (pre ++ Files.runHeader ++ body)) + 1)%Z
    with (Z.of_nat (String.length pre + String.length mid)).
  2: { unfold mid. rewrite !length_app_string. simpl String.length. lia. }
  rewrite Hshape in Hheader |- *. rewrite slice_middle.
  rewrite replace_first.
  - now rewrite GetSubstitution_dollar_free.
  - apply (indexOf_nat_extend Files.runHeader mid pre (mid ++ post) Hheader).
    + unfold mid. apply prefix_app.
    + apply prefix_app.
Qed.

Lemma replaceOnclick_at before rest :
  Str.indexOf_nat Files.onclickRun (before ++ Files.onclickRun ++ rest)
  = Some (String.length before) ->
  Files.replaceOnclick (before ++ Files.onclickRun ++ rest)
  = before ++ Files.onclickMain ++ rest.
Proof.
  intros Hclick. unfold Files.replaceOnclick, Str.indexOf. rewrite Hclick.
  unfold Str.index_or_minus_one. rewrite <- Nat2Z.inj_add, slice_middle.
  rewrite replace_first by exact Hclick.
  now rewrite GetSubstitution_dollar_free.
Qed.

(** X15. On a [taskpane.ts] of the expected shape - the click handler
    assigned before the [run] function, and [run] the last thing in the
    file that ends with a closing brace - the merge puts the generated
    code in the place of everything from the header of [run] to the last
    closing brace and renames the click handler to [main]; the text
    around them is kept. The generated code must hold no dollar sign,
    which [replace] would read as a pattern. *)
Theorem modifiedTSContent_expected_shape before between body post code :
  let tsFileContent :=
    before ++ Files.onclickRun ++ between ++ Files.runHeader ++ body ++ "}" ++ post in
  Str.indexOf_nat Files.onclickRun tsFileContent = Some (String.length before) ->
  Str.indexOf_nat Files.runHeader tsFileContent
  = Some (String.length (before ++ Files.onclickRun ++ between)) ->
  Str.lastIndexOf_nat "}" post = None ->
  Str.dollar_free code = true ->
  Files.modifiedTSContent tsFileContent code
  = before ++ Files.onclickMain ++ between ++ code ++ post.
Proof.
  intros ts Hclick Hheader Hbrace Hcode. unfold ts in *. clear ts.
  unfold Files.modifiedTSContent.
  replace (before ++ Files.onclickRun ++ between ++ Files.runHeader ++ body ++ "}" ++ post)
    with ((before ++ Files.onclickRun ++ between) ++ Files.runHeader ++ body ++ "}" ++ post)
    in Hheader |- * by (now rewrite !app_assoc_string).
  rewrite replaceRunFunction_between by assumption.
  rewrite !app_assoc_string. apply replaceOnclick_at.
  eapply indexOf_nat_tail. exact Hclick.
Qed.

(** X16. When [taskpane.ts] has no [run] function and does not end with
    a closing brace, nothing is replaced: the generated code is put in
    front of the unchanged file. *)
Theorem replaceRunFunction_without_run tsFileContent code :
  Str.indexOf_nat Files.runHeader tsFileContent = None ->
  (Str.lastIndexOf tsFileContent "}" + 1 < Z.of_nat (String.length tsFileContent))%Z ->
  Str.dollar_free code = true ->
  Files.replaceRunFunction tsFileContent code = code ++ tsFileContent.
Proof.
  intros Hnone Hlast Hcode. unfold Files.replaceRunFunction, Str.indexOf.
  rewrite Hnone. unfold Str.index_or_minus_one at 1.
  rewrite slice_from_last_empty.
  - rewrite replace_empty_pattern. now rewrite GetSubstitution_dollar_free.
  - split; [| exact Hlast]. unfold Str.lastIndexOf, Str.index_or_minus_one.
    destruct (Str.lastIndexOf_nat "}" tsFileContent); lia.
Qed.

(** X17. On a [taskpane.html] in which the feature list opens before
    the first closing list tag, the merge puts the introduction
    paragraph in the place of the list, from its opening tag to that
    closing tag, and keeps the text around it. *)
Theorem modifiedHtmlContent_expected_shape pre items post :
  let htmlFileContent := pre ++ Files.ulOpen ++ items ++ Files.ulClose ++ post in
  Str.indexOf_nat Files.ulOpen htmlFileContent = Some (String.length pre) ->
  Str.indexOf_nat Files.ulClose htmlFileContent
  = Some (String.length (pre ++ Files.ulOpen ++ items)) ->
  Files.modifiedHtmlContent htmlFileContent = pre ++ Files.htmlIntroduction ++ post.
Proof.
  intros html Hopen Hclose. unfold html in *. clear html.
  set (mid := Files.ulOpen ++ items ++ Files.ulClose).
  assert (Hshape : pre ++ Files.ulOpen ++ items ++ Files.ulClose ++ post
                   = pre ++ mid ++ post).
  { unfold mid. now rewrite !app_assoc_string. }
  unfold Files.modifiedHtmlContent, Str.indexOf. rewrite Hopen, Hclose.
  unfold Str.index_or_minus_one.
  replace (Z.of_nat (String.length (pre ++ Files.ulOpen ++ items))
           + Z.of_nat (String.length Files.ulClose))%Z
    with (Z.of_nat (String.length pre + String.length mid)).
  2: { unfold mid. rewrite !length_app_string. lia. }
  rewrite Hshape in Hopen |- *. rewrite slice_middle.
  rewrite replace_first.
  - now rewrite GetSubstitution_dollar_free.
  - apply (indexOf_nat_extend Files.ulOpen mid pre (mid ++ post) Hopen).
    + unfold mid. apply prefix_app.
    + apply prefix_app.
Qed.

End TaskpaneText.

Lemma modifiedTSContent_expected_shape_witness :
  Files.modifiedTSContent Taskpane.tsFileContent Taskpane.generatedCode
  = Taskpane.before ++ Files.onclickMain ++ Taskpane.between
    ++ Taskpane.generatedCode ++ Taskpane.post.
Proof.
  apply (modifiedTSContent_expected_shape Taskpane.before Taskpane.between
           Taskpane.body Taskpane.post Taskpane.generatedCode);
    vm_compute; reflexivity.
Defined.

Lemma replaceRunFunction_without_run_witness :
  Files.replaceRunFunction ("let x = { a: 1 };" ++ Files.newline) Taskpane.generatedCode
  = Taskpane.generatedCode ++ "let x = { a: 1 };" ++ Files.newline.
Proof.
  apply (replaceRunFunction_without_run ("let x = { a: 1 };" ++ Files.newline)
           Taskpane.generatedCode); vm_compute; reflexivity.
Defined.

Lemma modifiedHtmlContent_expected_shape_witness :
  Files.modifiedHtmlContent Taskpane.htmlFileContent
  = Taskpane.htmlHead ++ Files.htmlIntroduction ++ Taskpane.htmlTail.
Proof.
  apply (modifiedHtmlContent_expected_shape Taskpane.htmlHead Taskpane.htmlItems
           Taskpane.htmlTail); vm_compute; reflexivity.
Defined.

(** ** Merging on disk *)

Section MergeOnDisk.
Variable join : list string -> string.
Variable filePath : string.
Variable generatedCode : string.



End MergeOnDisk.

(** ** Building the file tree of a template *)

Section BuildTree.
Variable join : list string -> string.
Variable executeCreateCommand : option TemplateData -> string -> string -> Files.FS unit.
Variable readFolder : string -> Files.FS (list Files.Dirent).
Variable relative : string -> string -> string.
Variable fileTreeAdd : Files.ChatResponseFileTree -> string -> Files.ChatResponseFileTree.
Variable tempFolder tempAppName : string.

Abbreviation build :=
  (Files.buildTemplateFileTree join executeCreateCommand readFolder relative fileTreeAdd).
Abbreviation walk := (Files.walkRootFolder join readFolder relative fileTreeAdd).

(** The merge step of [buildTemplateFileTree] returns on every disk. *)
Lemma merge_step_returns (capabilities : string) (codeSnippet : option string)
    (rootFolder : string) (d : Files.Disk) :
  exists d',
    (if Str.includes capabilities "excel-cf" && Files.has_snippet codeSnippet
     then Files.mergeCFCode join rootFolder (default "" codeSnippet)
     else if Files.has_snippet codeSnippet
     then Files.mergeTaskpaneCode join rootFolder (default "" codeSnippet)
     else Files.fs_ret tt) d
    = (Returned tt, d')
    /\ (Files.has_snippet codeSnippet = false -> d' = d)
    /\ (Files.has_snippet codeSnippet = true ->
        Str.includes capabilities "excel-cf" = true ->
        forall uri, uri <> Files.functionsTs join rootFolder ->
                    Files.files d' !! uri = Files.files d !! uri)
    /\ (Files.has_snippet codeSnippet = true ->
        Str.includes capabilities "excel-cf" = false ->
        forall uri, uri <> Files.taskpaneTs join rootFolder ->
                    uri <> Files.taskpaneHtml join rootFolder ->
                    Files.files d' !! uri = Files.files d !! uri).
Proof.
  destruct (Files.has_snippet codeSnippet) eqn:Hsnippet.
  - destruct (Str.includes capabilities "excel-cf") eqn:Hcf; cbn [andb].
    + unfold Files.mergeCFCode, Files.fs_try_catch, Files.fs_bind, Files.readFile.
      destruct (Files.files d !! Files.functionsTs join rootFolder); simpl;
        eexists; (split; [reflexivity |]); simpl; repeat split; try discriminate.
      intros _ _ uri Hne. now rewrite lookup_insert_ne by congruence.
    + unfold Files.mergeTaskpaneCode, Files.fs_try_catch, Files.fs_bind, Files.readFile.
      destruct (Files.files d !! Files.taskpaneTs join rootFolder); simpl;
        [destruct (Files.files d !! Files.taskpaneHtml join rootFolder); simpl |];
        eexists; (split; [reflexivity |]); simpl; repeat split; try discriminate.
      intros _ _ uri Hne1 Hne2. now rewrite !lookup_insert_ne by congruence.
  - rewrite andb_false_r. exists d. unfold Files.fs_ret. repeat split; discriminate.
Qed.

(** X20. With [data] at hand [buildTemplateFileTree] fails only where
    the source has no [try]. A rejection of the create command is passed
    on before anything is merged. Once the command has returned, the
    merge never fails, and the result is that of the walk of the root
    folder on the merged disk, an error of the walk included. Without a
    code snippet (undefined or empty) the walk sees the files as the
    create command left them; a snippet goes to [functions.ts] alone
    when the capabilities contain "excel-cf", and to the two task pane
    files alone otherwise. *)
Theorem buildTemplateFileTree_dispatch (data : TemplateData)
    (codeSnippet : option string) (d : Files.Disk) :
  let rootFolder := join [tempFolder; tempAppName] in
  match executeCreateCommand (Some data) tempFolder tempAppName d with
  | (Thrown e, d1) =>
      build (Some data) tempFolder tempAppName codeSnippet d = (Thrown e, d1)
  | (Returned _, scaffolded) =>
      exists d',
        build (Some data) tempFolder tempAppName codeSnippet d = walk rootFolder d'
        /\ (Files.has_snippet codeSnippet = false -> d' = scaffolded)
        /\ (Files.has_snippet codeSnippet = true ->
            Str.includes (capabilities data) "excel-cf" = true ->
            forall uri, uri <> Files.functionsTs join rootFolder ->
                        Files.files d' !! uri = Files.files scaffolded !! uri)
        /\ (Files.has_snippet codeSnippet = true ->
            Str.includes (capabilities data) "excel-cf" = false ->
            forall uri, uri <> Files.taskpaneTs join rootFolder ->
                        uri <> Files.taskpaneHtml join rootFolder ->
                        Files.files d' !! uri = Files.files scaffolded !! uri)
  end.
Proof.
  intros rootFolder. unfold Files.buildTemplateFileTree. fold rootFolder.
  destruct (executeCreateCommand (Some data) tempFolder tempAppName d)
    as [[[] | e] scaffolded] eqn:Hcreate.
  - destruct (merge_step_returns (capabilities data) codeSnippet rootFolder scaffolded)
      as (d' & Hrun & Hframes).
    exists d'. split; [| exact Hframes].
    unfold Files.fs_bind at 1. rewrite Hcreate.
    unfold Files.fs_bind at 1. now rewrite Hrun.
  - unfold Files.fs_bind at 1. now rewrite Hcreate.
Qed.

(** X21. The data of the catalog fits. For a template entry of the
    combined catalog [buildTemplateFileTree] never fails on
    [data.capabilities]: once the create command has returned, its
    result is that of the walk of the root folder. For a sample entry,
    which has no [data], the create command runs first and the function
    then fails with a TypeError. In both cases a rejection of the create
    command is passed on. *)
Theorem buildTemplateFileTree_on_catalog
    (templates : list OfficeTemplateConfig) (samples : list SampleConfig)
    (project : ProjectMetadata) (codeSnippet : option string) (d : Files.Disk) :
  In project (allOfficeProjectMetadata templates samples) ->
  match executeCreateCommand (data project) tempFolder tempAppName d with
  | (Thrown e, d1) =>
      build (data project) tempFolder tempAppName codeSnippet d = (Thrown e, d1)
  | (Returned _, scaffolded) =>
      (type project = "template" ->
       exists d',
         build (data project) tempFolder tempAppName codeSnippet d
         = walk (join [tempFolder; tempAppName]) d')
      /\ (type project = "sample" ->
          build (data project) tempFolder tempAppName codeSnippet d
          = (Thrown "TypeError", scaffolded))
  end.
Proof.
  intros Hin. unfold allOfficeProjectMetadata in Hin.
  unfold Files.buildTemplateFileTree.
  apply in_app_iff in Hin as [Hin | Hin].
  - apply template_entry_shape in Hin as (config & _ & ->). simpl data.
    destruct (executeCreateCommand _ tempFolder tempAppName d)
      as [[[] | e] scaffolded] eqn:Hcreate.
    + split; [| discriminate]. intros _.
      destruct (merge_step_returns (config_id config) codeSnippet
                  (join [tempFolder; tempAppName]) scaffolded) as (d' & Hrun & _).
      exists d'. simpl capabilities. unfold Files.fs_bind at 1. rewrite Hcreate.
      unfold Files.fs_bind at 1. now rewrite Hrun.
    + unfold Files.fs_bind at 1. now rewrite Hcreate.
  - apply sample_entry_shape in Hin as (s & _ & _ & ->). simpl data.
    destruct (executeCreateCommand _ tempFolder tempAppName d)
      as [[[] | e] scaffolded] eqn:Hcreate.
    + split; [discriminate |]. intros _.
      unfold Files.fs_bind. now rewrite Hcreate.
    + unfold Files.fs_bind. now rewrite Hcreate.
Qed.

End BuildTree.

(** ** Walking the scaffolded folder *)

Section Traverse.
Context {S : Type}.
Variable join : string -> string -> string.
Variable callback : string -> S -> S.
Variable root : string.
Variable I : S -> Prop.
Hypothesis join_extends : forall a b, String.prefix a (join a b) = true.
Hypothesis callback_keeps :
  forall path st, String.prefix root path = true -> I st -> I (callback path st).

Lemma traverseEntry_keeps :
  forall (entry : Files.Dirent) (dir : string) (st : S),
    String.prefix root dir = true -> I st ->
    I (Files.traverseEntry join dir callback entry st).
Proof.
  fix IH 1. intros [file | file entries] dir st Hdir Hst; simpl.
  - apply callback_keeps; [| exact Hst].
    apply (prefix_trans root dir); [exact Hdir | apply join_extends].
  - assert (Hsub : String.prefix root (join dir file) = true).
    { apply (prefix_trans root dir); [exact Hdir | apply join_extends]. }
    revert st Hst. induction entries as [| e es IHes]; intros st Hst; simpl.
    + exact Hst.
    + apply IHes. apply IH; assumption.
Qed.

(** X22. [traverseFiles] hands the callback only paths that extend the
    folder it started from: a property of the state that every such call
    keeps holds after the walk, however deep the folder is. *)
Theorem traverseFiles_stays_below_root (entries : list Files.Dirent) (st : S) :
  I st -> I (Files.traverseFiles join root entries callback st).
Proof.
  unfold Files.traverseFiles. revert st.
  induction entries as [| e es IHes]; intros st Hst; simpl.
  - exact Hst.
  - apply IHes. apply traverseEntry_keeps; [| exact Hst].
    clear. induction root as [| c r IHr]; [reflexivity |].
    rewrite prefix_cons. now destruct (ascii_dec c c).
Qed.

End Traverse.

(** ** Missing anchors *)

(** X23. When the text has no assignment of the click handler to [run]
    and is at least as long as that assignment (44 code units), nothing
    is replaced: the assignment to [main] is put in front of the
    unchanged text. *)
Theorem replaceOnclick_without_handler (content : string) :
  Str.indexOf_nat Files.onclickRun content = None ->
  (44 <= String.length content)%nat ->
  Files.replaceOnclick content = Files.onclickMain ++ content.
Proof.
  intros Hnone Hlen. unfold Files.replaceOnclick, Str.indexOf. rewrite Hnone.
  unfold Str.index_or_minus_one.
  change (String.length Files.onclickRun) with 44%nat.
  rewrite slice_from_last_empty by lia.
  rewrite replace_empty_pattern. now rewrite GetSubstitution_dollar_free.
Qed.

(** X24. When [taskpane.html] has no feature list and the end of the
    slice, [indexOf("</ul>") + 5], lies before the end of the file (a
    first closing list tag that does not end the file, or no such tag
    and a file of more than four code units), nothing is replaced: the
    introduction paragraph is put in front of the unchanged file. *)
Theorem modifiedHtmlContent_without_list (htmlFileContent : string) :
  Str.indexOf_nat Files.ulOpen htmlFileContent = None ->
  (Str.indexOf htmlFileContent Files.ulClose + 5
   < Z.of_nat (String.length htmlFileContent))%Z ->
  Files.modifiedHtmlContent htmlFileContent = Files.htmlIntroduction ++ htmlFileContent.
Proof.
  intros Hnone Hend. unfold Files.modifiedHtmlContent.
  unfold Str.indexOf at 1. rewrite Hnone. unfold Str.index_or_minus_one at 1.
  change (Z.of_nat (String.length Files.ulClose)) with 5%Z.
  rewrite slice_from_last_empty.
  - rewrite replace_empty_pattern. now rewrite GetSubstitution_dollar_free.
  - split; [| exact Hend]. unfold Str.indexOf, Str.index_or_minus_one.
    destruct (Str.indexOf_nat Files.ulClose htmlFileContent); lia.
Qed.

Lemma replaceOnclick_without_handler_witness :
  Files.replaceOnclick "export async function main() { console.log(1); }"
  = Files.onclickMain ++ "export async function main() { console.log(1); }".
Proof.
  apply (replaceOnclick_without_handler
           "export async function main() { console.log(1); }").
  - vm_compute. reflexivity.
  - vm_compute. lia.
Defined.

Lemma modifiedHtmlContent_without_list_witness :
  Files.modifiedHtmlContent "<body><ol><li>One</li></ol></body>"
  = Files.htmlIntroduction ++ "<body><ol><li>One</li></ol></body>".
Proof.
  apply (modifiedHtmlContent_without_list "<body><ol><li>One</li></ol></body>").
  - vm_compute. reflexivity.
  - vm_compute. reflexivity.
Defined.

Lemma buildTemplateFileTree_on_catalog_witness :
  exists d',
    Files.buildTemplateFileTree Taskpane.join (fun _ _ _ => Files.fs_ret tt)
      (fun _ => Files.fs_ret Taskpane.tree) (fun _ path => path)
      (fun root _ => root)
      (data Replies.excelCf) "/tmp" "app" (Some Taskpane.generatedCode) Taskpane.disk
    = Files.walkRootFolder Taskpane.join (fun _ => Files.fs_ret Taskpane.tree)
        (fun _ path => path) (fun root _ => root) "/tmp/app" d'.
Proof.
  apply (buildTemplateFileTree_on_catalog Taskpane.join (fun _ _ _ => Files.fs_ret tt)
           (fun _ => Files.fs_ret Taskpane.tree) (fun _ path => path)
           (fun root _ => root) "/tmp" "app" Demo.templates Demo.samples
           Replies.excelCf (Some Taskpane.generatedCode) Taskpane.disk).
  - simpl. auto.
  - reflexivity.
Defined.

Lemma traverseFiles_stays_below_root_witness :
  Forall (fun path => String.prefix "/tmp/app" path = true)
         (Files.traverseFiles Taskpane.join2 "/tmp/app" Taskpane.tree
                              (fun path visited => (visited ++ [path])%list) []).
Proof.
  apply (traverseFiles_stays_below_root Taskpane.join2
           (fun path visited => (visited ++ [path])%list) "/tmp/app"
           (Forall (fun path => String.prefix "/tmp/app" path = true))).
  - intros a b. apply prefix_app.
  - intros path st Hpath Hst. apply Forall_app. split; [exact Hst |].
    constructor; [exact Hpath | constructor].
  - constructor.
Defined.

(** ** Runs of the merge *)

Example example_traverseFiles :
  Files.traverseFiles Taskpane.join2 "/tmp/app" Taskpane.tree
                      (fun path visited => (visited ++ [path])%list) []
  = [ "/tmp/app/package.json";
      "/tmp/app/src/taskpane/taskpane.ts";
      "/tmp/app/src/taskpane/taskpane.html" ].
Proof. vm_compute. reflexivity. Qed.

Example example_mergeTaskpaneCode :
  let d' := snd (Files.mergeTaskpaneCode Taskpane.join "/tmp/app"
                                         Taskpane.generatedCode Taskpane.disk) in
  Files.files d' !! "/tmp/app/src/taskpane/taskpane.ts"
  = Some (Taskpane.before ++ Files.onclickMain ++ Taskpane.between
          ++ Taskpane.generatedCode ++ Taskpane.post)
  /\ Files.files d' !! "/tmp/app/src/taskpane/taskpane.html"
     = Some (Taskpane.htmlHead ++ Files.htmlIntroduction ++ Taskpane.htmlTail)
  /\ Files.console d' = [].
Proof. vm_compute. repeat split. Qed.

Example example_mergeCFCode_missing :
  Files.mergeCFCode Taskpane.join "/tmp/app" Taskpane.generatedCode Taskpane.disk
  = (Returned tt,
     {| Files.files := Files.files Taskpane.disk;
        Files.console := ["Failed to modify file"] |}).
Proof. vm_compute. reflexivity. Qed.
